(** * pylucam: a shallow embedding of [src/pylucam/lucam.py]

    The module binds the Lumenera camera library through cffi.  The
    embedding follows the file top to bottom: the string helpers used by
    [LucamCamera._property_value], the [LucamError.CODES] table, the
    [Format] and [Snapshot] marshallers, and the [LucamCamera] session,
    whose methods are programs of a small state-and-exception monad that
    records every call into the bound library. *)

From Stdlib Require Import ZArith String Ascii List Bool Lia.
From stdpp Require Import base option list gmap strings.

Local Open Scope Z_scope.
Local Open Scope string_scope.

(** ** Python [str] operations

    Property names are taken as text over code points below 128 (they
    become symbol names of a C header); on that range the definitions
    below are [str.upper], [str.split] without arguments, [str.join],
    the substring test [in], [str.replace] and the one regular
    expression the module uses. *)
Module PyStr.

(** The character class [[A-Z]] of the pattern [r"([A-Z])"]. *)
Definition is_AZ (c : ascii) : bool :=
  let n := nat_of_ascii c in ((65 <=? n) && (n <=? 90))%nat.

(** [str.isspace] below 128: tab, LF, VT, FF, CR, the separators
    0x1c to 0x1f, and the space. *)
Definition isspace (c : ascii) : bool :=
  let n := nat_of_ascii c in
  (((9 <=? n) && (n <=? 13)) || ((28 <=? n) && (n <=? 32)))%nat.

Definition upper_char (c : ascii) : ascii :=
  let n := nat_of_ascii c in
  if ((97 <=? n) && (n <=? 122))%nat then ascii_of_nat (n - 32) else c.

(** [s.upper()] *)
Fixpoint upper (s : string) : string :=
  match s with
  | EmptyString => EmptyString
  | String c s' => String (upper_char c) (upper s')
  end.

(** [re.sub(r"([A-Z])", r" \1", s)]: every capital letter is replaced
    by a space followed by itself. *)
Fixpoint sub_capitals (s : string) : string :=
  match s with
  | EmptyString => EmptyString
  | String c s' =>
      if is_AZ c then String " " (String c (sub_capitals s'))
      else String c (sub_capitals s')
  end.

(** The word collected so far, emitted when it is not empty. *)
Definition emit (cur : string) : list string :=
  match cur with EmptyString => [] | _ => [cur] end.

Fixpoint split_go (cur : string) (s : string) : list string :=
  match s with
  | EmptyString => emit cur
  | String c s' =>
      if isspace c then emit cur ++ split_go EmptyString s'
      else split_go (cur ++ String c EmptyString) s'
  end.

(** [s.split()]: the maximal runs of non-whitespace characters. *)
Definition split (s : string) : list string := split_go EmptyString s.

(** [sep.join(l)] *)
Fixpoint join (sep : string) (l : list string) : string :=
  match l with
  | [] => EmptyString
  | [w] => w
  | w :: l' => w ++ sep ++ join sep l'
  end.

Fixpoint starts_with (p s : string) : bool :=
  match p, s with
  | EmptyString, _ => true
  | String a p', String b s' => Ascii.eqb a b && starts_with p' s'
  | String _ _, EmptyString => false
  end.

(** [sub in s] *)
Fixpoint contains (sub s : string) : bool :=
  starts_with sub s ||
  match s with
  | EmptyString => false
  | String _ s' => contains sub s'
  end.

(** [s.replace(old, new)] for a non-empty [old]: occurrences are taken
    left to right without overlap; [skip] counts the characters of a
    matched occurrence still to be dropped. *)
Fixpoint replace_go (old new : string) (skip : nat) (s : string) : string :=
  match s with
  | EmptyString => EmptyString
  | String c s' =>
      match skip with
      | S k => replace_go old new k s'
      | O =>
          if starts_with old s
          then new ++ replace_go old new (String.length old - 1) s'
          else String c (replace_go old new 0 s')
      end
  end.

Definition replace (old new s : string) : string := replace_go old new 0 s.






End PyStr.

(** ** Property-name resolution, [LucamCamera._property_value]

    For a [str] argument the method computes the name handed to
    [getattr(self.lib, ...)]. *)
Definition property_symbol (property : string) : string :=
  let property :=
    if negb (PyStr.contains "_" property)
    then PyStr.join "_" (PyStr.split (PyStr.sub_capitals property))
    else property in
  "LUCAM_PROP_" ++ PyStr.upper property.



(** ** Exceptions and results

    The exceptions the module can raise: its own [LucamError], carrying
    the code fetched from the library, and the built-in ones raised by
    attribute lookup, dict lookup, cffi and numpy. *)
Inductive exn : Type :=
| LucamErr (value : Z)
| AttributeError (name : string)
| KeyError (key : Z)
| OverflowError (member : string)
| ValueError (what : string)
| TypeError (what : string).

Inductive result (A : Type) : Type :=
| Ok (a : A)
| Raise (e : exn).
Arguments Ok {A} a.
Arguments Raise {A} e.

Definition is_ok {A} (r : result A) : bool :=
  match r with Ok _ => true | Raise _ => false end.

Definition result_bind {A B} (r : result A) (k : A -> result B) : result B :=
  match r with Ok a => k a | Raise e => Raise e end.

Declare Scope py_scope.
Delimit Scope py_scope with py.
Notation "x <~ r ;; k" := (result_bind r (fun x => k))
  (at level 100, r at next level, right associativity) : py_scope.

(** A loop [for x in l: acc = body(acc, x)] whose body may raise. *)
Fixpoint result_for {A X} (body : A -> X -> result A) (l : list X) (acc : A)
  : result A :=
  match l with
  | [] => Ok acc
  | x :: l' => result_bind (body acc x) (result_for body l')
  end.

(** ** [class LucamError]

    [CODES] is the dict literal of the class; [__str__] indexes it with
    the stored value, so a value that is not a key raises [KeyError]. *)
Module LucamError.

Definition CODES_items : list (Z * string) := [
  (0, "NoError
            Initialization value in the API.");
  (1, "NoSuchIndex
            The index passed to LucamCameraOpen was 0. It must be >= 1.");
  (2, "SnapshotNotSupported
            The camera does not support snapshots or fast frames.");
  (3, "InvalidPixelFormat
            The pixel format parameter passed to the function is invalid.");
  (4, "SubsamplingZero
            A subsampling of zero was passed to a function.");
  (5, "Busy
            The function is unavailable because the camera is busy with
            streaming or capturing fast frames.");
  (6, "FailedToSetSubsampling
            The API failed to set the requested subsampling. This can be due
            to the camera being disconnected. It can also be due to a filter
            not being there.");
  (7, "FailedToSetStartPosition
            The API failed to set the requested subsampling. This can be due
            to the camera being disconnected.");
  (8, "PixelFormatNotSupported
            The camera does not support the pixel format passed to the
            function.");
  (9, "InvalidFrameFormat
            The format passed to the function does not pass the camera
            requirements. Verify that (xOffset + width) is not greater than
            the camera's maximum width. Verify that (width / subSamplingX)
            is a multiple of some 'nice' value. Do the same for the y.");
  (10, "PreparationFailed
            The API failed to prepare the camera for streaming or snapshot.
            This can due to the camera being disconnected. If START_STREAMING
            succeeds and START_DISPLAY fails with this error, this can be due
            to a filter not being there or registered.");
  (11, "CannotRun
            The API failed to get the camera running. This can be due to
            a bandwidth problem.");
  (12, "NoTriggerControl
            Contact Lumenera.");
  (13, "NoPin
            Contact Lumenera.");
  (14, "NotRunning
            The function failed because it requires the camera to be running,
            and it is not.");
  (15, "TriggerFailed
            Contact Lumenera.");
  (16, "CannotSetupFrameFormat
            The camera does not support that its frame format get setup.
            This will happen if your camera is plugged to a USB 1 port and
            it does not support it. LucamCameraOpen will still succeeds,
            but if a call to LucamGetLastError will return this value.");
  (17, "DirectShowInitError
            Direct Show initialization error. This may happen if you run the
            API before having installed a DS compatible camera ever before.
            The Lumenera camera is DS compatible.");
  (18, "CameraNotFound
            The function LucamCameraOpen did not find the camera # index.");
  (19, "Timeout
            The function timed out.");
  (20, "PropertyUnknown
            The API does not know the property passed to LucamGetProperty,
            LucamSetProperty or LucamGetPropertyRange. You may be using an
            old DLL.");
  (21, "PropertyUnsupported
            The camera does not support that property.");
  (22, "PropertyAccessFailed
            The API failed to access the property. Most likely, the reason
            is that the camera does not support that property.");
  (23, "LucustomNotFound
            The lucustom.ax filter was not found.");
  (24, "PreviewNotRunning
            The function failed because preview is not running.");
  (25, "LutfNotLoaded
            The function failed because lutf.ax is not loaded.");
  (26, "DirectShowError
            An error related to the operation of DirectShow occured.");
  (27, "NoMoreCallbacks
            The function LucamAddStreamingCallback failed because the API
            cannot support any more callbacks.");
  (28, "UndeterminedFrameFormat
            The API does not know what is the frame format of the camera.");
  (29, "InvalidParameter
            An parameter has an obviously wrong value.");
  (30, "NotEnoughResources
            Resource allocation failed.");
  (31, "NoSuchConversion
            One of the members of the LUCAM_CONVERSION structure passed is
            either unknown or inappropriate.");
  (32, "ParameterNotWithinBoundaries
            A parameter representing a quantity is outside the allowed
            boundaries.");
  (33, "BadFileIo
            An error occured creating a file or writing to it. Verify that
            the path exists.");
  (34, "GdiplusNotFound
            gdiplus.dll is needed and was not found.");
  (35, "GdiplusError
            gdiplus.dll reported an error. This may happen if there is a file
            IO error.");
  (36, "UnknownFormatType
            Contact Lumenera.");
  (37, "FailedCreateDisplay
            The API failed to create the display window. The reason could be
            unsufficient resources.");
  (38, "DpLibNotFound
            deltapolation.dll is needed and was not found.");
  (39, "DpCmdNotSupported
            The deltapolation command is not supported by the delta
            polation library.");
  (40, "DpCmdUnknown
            The deltapolation command is unknown or invalid.");
  (41, "NotWhilePaused
            The function cannot be performed when the camera is in
            paused state.");
  (42, "CaptureFailed
            Contact Lumenera.");
  (43, "DpError
            Contact Lumenera.");
  (44, "NoSuchFrameRate
            Contact Lumenera.");
  (45, "InvalidTarget
            One of the target parameters is wrong. This error code is used
            when startX + width > (frameFormat.width / frameFormat.subSampleX)
            or startY + height > (frameFormat.height / frameFormat.subSampleY)
            if any of those parameter is odd (not a multiple of 2) or
            or if width or height is 0.");
  (46, "FrameTooDark
            The frame is too dark to perform white balance.");
  (47, "KsPropertySetNotFound
            A DirectShow interface necessary to carry out the operation
            was not found.");
  (48, "Cancelled
            The user cancelled the operation.");
  (49, "KsControlNotSupported
            The DirectShow IKsControl interface is not supported (did you
            unplug the camera?).");
  (50, "EventNotSupported
            Some module attempted to register an unsupported event.");
  (51, "NoPreview
            The function failed because preview was not setup.");
  (52, "SetPositionFailed
            A function setting window position failed (invalid parameters).");
  (53, "NoFrameRateList
            The frame rate list is not available.");
  (54, "FrameRateInconsistent
            There was an error building the frame rate list.");
  (55, "CameraNotConfiguredForCmd
            The camera does not support that particular command.");
  (56, "GraphNotReady
            The graph is not ready.");
  (57, "CallbackSetupError
            Contact Lumenera.");
  (58, "InvalidTriggerMode
            You cannot cause a soft trigger when hw trigger is enabled.");
  (59, "NotFound
            The API was asked to return soomething that is not there.");
  (60, "EepromTooSmall
            The onboard EEPROM is too small.");
  (61, "EepromWriteFailed
            The API failed to write to the onboard eeprom.");
  (62, "UnknownFileType
            The API failed because it failed to recognize the file type of
            a file name passed to it.");
  (63, "EventIdNotSupported
            LucamRegisterEventNotification failed because the event
            is not supported.");
  (64, "EepromCorrupted
            The API found that the EEPROM was corrupted.");
  (65, "SectionTooBig
            The VPD section to write to the eeprom is too big.");
  (66, "FrameTooBright
            The frame is too bright to perform white balance.");
  (67, "NoCorrectionMatrix
            The camera is configured to have no correction matrix
            (PROPERTY_CORRECTION_MATRIX is LUCAM_CM_NONE).");
  (68, "UnknownCameraModel
            The API failed because it needs to know the camera model and it
            is not available.");
  (69, "ApiTooOld
            The API failed because it needs to be upgraded to access a
            feature of the camera.");
  (70, "SaturationZero
            The API failed because the saturation is currently 0.");
  (71, "AlreadyInitialised
            The API failed because the object was already initialised.");
  (72, "SameInputAndOutputFile
            The API failed because the object was already initialised.");
  (73, "FileConversionFailed
            The API failed because the file conversion was not completed.");
  (74, "FileAlreadyConverted
            The API failed because the file is already converted in the
            desired format.");
  (75, "PropertyPageNotSupported
            The API failed to display the property page.");
  (76, "PropertyPageCreationFailed
            The API failed to create the property page.");
  (77, "DirectShowFilterNotInstalled
            The API did not find the required direct show filter.");
  (78, "IndividualLutNotAvailable
            The camera does not support that different LUTs are applied
            to each color.");
  (79, "UnexpectedError
            Contact Lumenera.");
  (80, "StreamingStopped
            LucamTakeFastFrame or LucamTakeVideo failed because another thread
            interrupted the streaming by a call to LucamDisableFastFrames or
            LucamStreamVideoControl.");
  (81, "MustBeInSwTriggerMode
            LucamForceTakeFastFrame was called while the camera is in hardware
            trigger still mode and the camera does not support taking a sw
            trigger snapshot while in that state.");
  (82, "TargetFlaky
            The target is too flaky to perform auto focus.");
  (83, "AutoLensUninitialized
            The auto lens needs to be initialized before the function
            is used.");
  (84, "LensNotInstalled
            The function failed because the lens were not installed correctly.
            Verify that changing the focus has any effect.");
  (85, "UnknownError
            The function failed because of an unknoen error.
            Contact Lumenera.");
  (86, "FocusNoFeedbackError
            There is no feedback available for focus.");
  (87, "LutfTooOld
            LuTF.ax is too old for this feature.");
  (88, "UnknownAviFormat
            Unknown or invalid AVI format for input file.");
  (89, "UnknownAviType
            Unknown AVI type. Verify the AVI type parameter.");
  (90, "InvalidAviConversion
            The AVI conversion is invalid.");
  (91, "SeekFailed
            The seeking operation failed.");
  (92, "AviRunning
            The function cannot be performed while an AVI is being
            captured.");
  (93, "CameraAlreadyOpened
            An attempt was made to open a camera for streaming-related
            reasons while it is already opened for such.");
  (94, "NoSubsampledHighRes
            The API cannot take a high resolution image in subsampled mode
            or binning mode.");
  (95, "OnlyOnMonochrome
            The API function is only available on monochrome cameras.");
  (96, "No8bppTo48bpp
            Building a 48 bpp image from an 8 bpp image is invalid.");
  (97, "Lut8Obsolete
            Use 12 bits LUT instead.");
  (98, "FunctionNotSupported
            That functionnality is not supported.");
  (99, "RetryLimitReached
            Property access failed due to a retry limit.")
].
Definition CODES : gmap Z string := list_to_map CODES_items.

Definition __str__ (value : Z) : result string :=
  match CODES !! value with
  | Some text => Ok text
  | None => Raise (KeyError value)
  end.

End LucamError.

(** ** C data

    [lucamapi.h] is not part of the sources, so the declaration of
    [LUCAM_FRAME_FORMAT] is a parameter of the embedding: each member
    has an integer type (signedness and width in bits) and a storage slot, and
    members declared inside a C union share one slot.  A struct instance
    maps slots to the integers stored there; [ffi.new] zero-initialises
    it. *)
Record CMember : Type := {
  slot : nat;
  signed : bool;
  bits : positive
}.

Definition fits (m : CMember) (v : Z) : bool :=
  (if signed m
   then (- 2 ^ (Z.pos (bits m) - 1) <=? v) && (v <? 2 ^ (Z.pos (bits m) - 1))
   else (0 <=? v) && (v <? 2 ^ Z.pos (bits m)))%Z.

(** The integer a member of that type shows for the stored content. *)
Definition c_read (m : CMember) (raw : Z) : Z :=
  (if signed m
   then (raw + 2 ^ (Z.pos (bits m) - 1)) mod 2 ^ Z.pos (bits m)
        - 2 ^ (Z.pos (bits m) - 1)
   else raw mod 2 ^ Z.pos (bits m))%Z.

Abbreviation cdata := (gmap nat Z).

Definition ffi_new : cdata := ∅.

(** Python numbers: the values of the dataclass fields and of the
    arguments passed to the library. *)
Inductive pynum (pyfloat : Type) : Type :=
| PyInt (z : Z)
| PyFloat (x : pyfloat).
Arguments PyInt {pyfloat} z.
Arguments PyFloat {pyfloat} x.

(** [LUCAM_SNAPSHOT] as the module fills it: the floating-point members
    set by name and the embedded frame format. *)
Record LUCAM_SNAPSHOT (FLOAT : Type) : Type := {
  snapshot_floats : gmap string FLOAT;
  snapshot_format : cdata
}.
Arguments snapshot_floats {FLOAT} _.
Arguments snapshot_format {FLOAT} _.

(** ** Calls into the bound library

    One constructor per library function the module uses, with the
    arguments passed and the answer received; [Getattr] is the lookup
    of a constant ([LUCAM_PROP_...], [START_STREAMING], ...) on the
    library object.  A [BOOL] answer is a [bool]; a call with output
    parameters answers [Some] of what it wrote on [TRUE] and [None] on
    [FALSE].  Handles are integers, 0 being the null handle; integer
    arguments are the Python integers passed, taken to fit the
    parameter types of the prototypes; the window handle passed to
    [LucamStreamVideoControl] is always a fresh null [HWND] and is left
    out. *)
Inductive event (pyfloat FLOAT : Type) : Type :=
| Getattr (name : string) (ret : option Z)
| CameraOpen (number : Z) (ret : Z)
| GetLastError (ret : Z)
| GetLastErrorForCamera (handle : Z) (ret : Z)
| GetProperty (handle property : Z) (ret : option FLOAT)
| SetProperty (handle property : Z) (value : pynum pyfloat) (flags : Z) (ret : bool)
| GetFormat (handle : Z) (ret : option (cdata * FLOAT))
| EnableFastFrames (handle : Z) (snapshot : LUCAM_SNAPSHOT FLOAT) (ret : bool)
| DisableFastFrames (handle : Z) (ret : bool)
| TakeFastFrame (handle : Z) (nbytes : Z) (ret : bool)
| StreamVideoControl (handle control : Z) (ret : bool)
| OneShotAutoWhiteBalance (handle startX startY width height : Z) (ret : bool).
Arguments Getattr {pyfloat FLOAT}.
Arguments CameraOpen {pyfloat FLOAT}.
Arguments GetLastError {pyfloat FLOAT}.
Arguments GetLastErrorForCamera {pyfloat FLOAT}.
Arguments GetProperty {pyfloat FLOAT}.
Arguments SetProperty {pyfloat FLOAT}.
Arguments GetFormat {pyfloat FLOAT}.
Arguments EnableFastFrames {pyfloat FLOAT}.
Arguments DisableFastFrames {pyfloat FLOAT}.
Arguments TakeFastFrame {pyfloat FLOAT}.
Arguments StreamVideoControl {pyfloat FLOAT}.
Arguments OneShotAutoWhiteBalance {pyfloat FLOAT}.

(** ** [LUCAM_API]: the bound library

    Everything the module obtains from [lucamapi.dll] and [lucamapi.h]:
    the number types on both sides of the boundary, the layout of
    [LUCAM_FRAME_FORMAT], the constants of the header, and the library
    functions, each a transition of the library's own state [W]. *)
Class API : Type := {
  pyfloat : Type;
  FLOAT : Type;
  (** cffi storing a Python number into a [FLOAT] *)
  FLOAT_of_py : pynum pyfloat -> FLOAT;
  (** reading [value[0]] of a [FLOAT *] *)
  py_of_FLOAT : FLOAT -> pyfloat;
  frame_member : string -> CMember;
  lib_constant : string -> option Z;
  (** the bytes of a freshly allocated array *)
  uninitialised : Z -> list Z;
  W : Type;
  LucamCameraOpen : Z -> W -> Z * W;
  LucamGetLastError : W -> Z * W;
  LucamGetLastErrorForCamera : Z -> W -> Z * W;
  LucamGetProperty : Z -> Z -> W -> option FLOAT * W;
  LucamSetProperty : Z -> Z -> pynum pyfloat -> Z -> W -> bool * W;
  LucamGetFormat : Z -> W -> option (cdata * FLOAT) * W;
  LucamEnableFastFrames : Z -> LUCAM_SNAPSHOT FLOAT -> W -> bool * W;
  LucamDisableFastFrames : Z -> W -> bool * W;
  LucamTakeFastFrame : Z -> list Z -> W -> (bool * list Z) * W;
  LucamStreamVideoControl : Z -> Z -> W -> bool * W;
  LucamOneShotAutoWhiteBalance : Z -> Z -> Z -> Z -> Z -> W -> bool * W
}.

(** Attribute access on a cffi struct: reading shows the member's
    integer, writing an integer that does not fit the member's type
    raises [OverflowError]. *)
Definition c_getattr `{API} (c : cdata) (attr : string) : Z :=
  c_read (frame_member attr) (default 0 (c !! slot (frame_member attr))).

Definition c_setattr `{API} (c : cdata) (attr : string) (v : Z) : result cdata :=
  if fits (frame_member attr) v
  then Ok (<[slot (frame_member attr) := v]> c)
  else Raise (OverflowError attr).

(** The struct after [g attr] has been stored in every member listed. *)
Definition stored `{API} (g : string -> Z) (l : list string) (c : cdata) : cdata :=
  foldl (fun c attr => <[slot (frame_member attr) := g attr]> c) c l.

(** ** [@dataclass class Format] *)
Module Format.

Record t : Type := {
  xOffset : Z;
  yOffset : Z;
  width : Z;
  height : Z;
  pixelFormat : Z;
  subSampleX : Z;
  binningX : Z;
  flagsX : Z;
  subSampleY : Z;
  binningY : Z;
  flagsY : Z
}.

Definition __annotations__ : list string :=
  ["xOffset"; "yOffset"; "width"; "height"; "pixelFormat"; "subSampleX";
   "binningX"; "flagsX"; "subSampleY"; "binningY"; "flagsY"].

(** The instance attributes, in the order of the fields. *)
Definition items (self : t) : list (string * Z) :=
  [("xOffset", xOffset self); ("yOffset", yOffset self);
   ("width", width self); ("height", height self);
   ("pixelFormat", pixelFormat self); ("subSampleX", subSampleX self);
   ("binningX", binningX self); ("flagsX", flagsX self);
   ("subSampleY", subSampleY self); ("binningY", binningY self);
   ("flagsY", flagsY self)].

Definition __dict__ (self : t) : gmap string Z := list_to_map (items self).

Definition getattr (self : t) (attr : string) : result Z :=
  match __dict__ self !! attr with
  | Some v => Ok v
  | None => Raise (AttributeError attr)
  end.

(** The value of an attribute that exists. *)
Definition value (self : t) (attr : string) : Z :=
  match getattr self attr with Ok v => v | Raise _ => 0 end.

(** The class called with keyword arguments: the generated
    [__init__] wants every field. *)
Definition cls (kwargs : gmap string Z) : result t :=
  match kwargs !! "xOffset", kwargs !! "yOffset", kwargs !! "width",
        kwargs !! "height", kwargs !! "pixelFormat", kwargs !! "subSampleX",
        kwargs !! "binningX", kwargs !! "flagsX", kwargs !! "subSampleY",
        kwargs !! "binningY", kwargs !! "flagsY" with
  | Some a, Some b, Some c, Some d, Some e, Some f, Some g, Some h,
    Some i, Some j, Some k =>
      Ok {| xOffset := a; yOffset := b; width := c; height := d;
            pixelFormat := e; subSampleX := f; binningX := g; flagsX := h;
            subSampleY := i; binningY := j; flagsY := k |}
  | _, _, _, _, _, _, _, _, _, _, _ => Raise (TypeError "__init__")
  end.

Section Marshalling.
Context `{API}.

(** [kwargs[attr] = getattr(lucam_frame_format, attr)] for every
    annotation, then the class called with these keyword arguments. *)
Definition from_lucam_kwargs (lucam_frame_format : cdata) : gmap string Z :=
  foldl (fun kwargs attr => <[attr := c_getattr lucam_frame_format attr]> kwargs)
        ∅ __annotations__.

Definition from_lucam (lucam_frame_format : cdata) : result t :=
  cls (from_lucam_kwargs lucam_frame_format).

(** [setattr(lucam_frame_format, attr, getattr(self, attr))] for
    every annotation, on a new [LUCAM_FRAME_FORMAT]. *)
Definition as_lucam (self : t) : result cdata :=
  result_for (fun c attr => (v <~ getattr self attr ;; c_setattr c attr v)%py)
             __annotations__ ffi_new.

End Marshalling.

End Format.

(** A value held by a [Snapshot] field. *)
Inductive pyobj (pyfloat : Type) : Type :=
| Num (n : pynum pyfloat)
| Fmt (f : Format.t).
Arguments Num {pyfloat} n.
Arguments Fmt {pyfloat} f.

(** ** [@dataclass class Snapshot] *)
Module Snapshot.

Section Fields.
Context `{API}.

Record t : Type := {
  exposure : pynum pyfloat;
  gain : pynum pyfloat;
  gainRed : pynum pyfloat;
  gainBlue : pynum pyfloat;
  gainGrn1 : pynum pyfloat;
  gainGrn2 : pynum pyfloat;
  timeout : pynum pyfloat;
  format : Format.t
}.

Definition __dict__ (self : t) : gmap string (pyobj pyfloat) :=
  list_to_map
    [("exposure", Num (exposure self)); ("gain", Num (gain self));
     ("gainRed", Num (gainRed self)); ("gainBlue", Num (gainBlue self));
     ("gainGrn1", Num (gainGrn1 self)); ("gainGrn2", Num (gainGrn2 self));
     ("timeout", Num (timeout self)); ("format", Fmt (format self))].

Definition getattr (self : t) (attr : string) : result (pyobj pyfloat) :=
  match __dict__ self !! attr with
  | Some v => Ok v
  | None => Raise (AttributeError attr)
  end.

(** The class called with keyword arguments. *)
Definition cls (kwargs : gmap string (pyobj pyfloat)) : result t :=
  match kwargs !! "exposure", kwargs !! "gain", kwargs !! "gainRed",
        kwargs !! "gainBlue", kwargs !! "gainGrn1", kwargs !! "gainGrn2",
        kwargs !! "timeout", kwargs !! "format" with
  | Some (Num a), Some (Num b), Some (Num c), Some (Num d), Some (Num e),
    Some (Num f), Some (Num g), Some (Fmt h) =>
      Ok {| exposure := a; gain := b; gainRed := c; gainBlue := d;
            gainGrn1 := e; gainGrn2 := f; timeout := g; format := h |}
  | _, _, _, _, _, _, _, _ => Raise (TypeError "__init__")
  end.

Definition new_lucam_snapshot : LUCAM_SNAPSHOT FLOAT :=
  {| snapshot_floats := ∅; snapshot_format := ffi_new |}.

(** One turn of the loop of [as_lucam]: the [format] attribute is
    marshalled by [Format.as_lucam] and copied into the struct, any
    other attribute is stored as a [FLOAT]. *)
Definition as_lucam_step (self : t) (lucam_snapshot : LUCAM_SNAPSHOT FLOAT)
    (attr : string) : result (LUCAM_SNAPSHOT FLOAT) :=
  (value <~ getattr self attr ;;
   if String.eqb attr "format" then
     match value with
     | Fmt f =>
         c <~ Format.as_lucam f ;;
         Ok {| snapshot_floats := snapshot_floats lucam_snapshot;
               snapshot_format := c |}
     | Num _ => Raise (AttributeError "as_lucam")
     end
   else
     match value with
     | Num n =>
         Ok {| snapshot_floats :=
                 <[attr := FLOAT_of_py n]> (snapshot_floats lucam_snapshot);
               snapshot_format := snapshot_format lucam_snapshot |}
     | Fmt _ => Raise (TypeError attr)
     end)%py.

End Fields.

Definition __annotations__ : list string :=
  ["exposure"; "gain"; "gainRed"; "gainBlue"; "gainGrn1"; "gainGrn2";
   "timeout"; "format"].

Definition as_lucam `{API} (self : t) : result (LUCAM_SNAPSHOT FLOAT) :=
  result_for (as_lucam_step self) __annotations__ new_lucam_snapshot.

End Snapshot.

(** ** numpy arrays, as far as [take_fast_frame] uses them *)
Module np.

Record ndarray : Type := {
  shape : list Z;
  dtype : string;
  c_contiguous : bool;
  data : list Z
}.

Definition uint8 : string := "uint8".

(** [np.ndarray((rows, columns), dtype)]: a new C-ordered array over
    uninitialised memory; a negative dimension is refused.  Memory is
    taken to be available: exhaustion is not modelled. *)
Definition ndarray2 `{API} (rows columns : Z) (dtype : string) : result ndarray :=
  if ((rows <? 0) || (columns <? 0))%Z
  then Raise (ValueError "negative dimensions are not allowed")
  else Ok {| shape := [rows; columns]; dtype := dtype; c_contiguous := true;
             data := uninitialised (rows * columns) |}.

(** [np.ascontiguousarray(a)] *)
Definition ascontiguousarray (a : ndarray) : ndarray :=
  {| shape := shape a; dtype := dtype a; c_contiguous := true; data := data a |}.

End np.

(** ** [class LucamProperty(Enum)]

    The member values are read from the library's constants when the
    class is created, so a session can exist only over a library that
    has them. *)
Module LucamProperty.

Inductive t : Type := gain | gain_red | gain_blue | gain_green1 | gain_green2.

Definition symbol (p : t) : string :=
  match p with
  | gain => "LUCAM_PROP_GAIN"
  | gain_red => "LUCAM_PROP_GAIN_RED"
  | gain_blue => "LUCAM_PROP_GAIN_BLUE"
  | gain_green1 => "LUCAM_PROP_GAIN_GREEN1"
  | gain_green2 => "LUCAM_PROP_GAIN_GREEN2"
  end.

Definition value `{API} (p : t) : option Z := lib_constant (symbol p).

End LucamProperty.

(** The argument of [get_property] and [set_property]:
    [LucamProperty | int | str]. *)
Inductive property_id : Type :=
| ByEnum (p : LucamProperty.t)
| ByInt (n : Z)
| ByStr (s : string).

(** ** [class LucamCamera] *)
Module LucamCamera.

Section Session.
Context `{API}.

(** The instance.  [format], [snapshot], [width] and [height] have
    no class-level value: they are unset until a method assigns
    them, and reading an unset one raises [AttributeError]. *)
Record t : Type := {
  _handle : Z;
  format : option Format.t;
  snapshot : option Snapshot.t;
  framerate : pynum pyfloat;
  fast_frames_enabled : bool;
  width : option Z;
  height : option Z
}.

(** The instance, the library's state, and the calls made so far. *)
Record machine : Type := {
  self : t;
  lib : W;
  calls : list (event pyfloat FLOAT)
}.

Definition M (A : Type) : Type := machine -> result A * machine.

Definition ret {A} (a : A) : M A := fun m => (Ok a, m).

Definition raise {A} (e : exn) : M A := fun m => (Raise e, m).

Definition bind {A B} (c : M A) (k : A -> M B) : M B :=
  fun m =>
    match c m with
    | (Ok a, m') => k a m'
    | (Raise e, m') => (Raise e, m')
    end.

Notation "x <- c ;; k" := (bind c (fun x => k))
  (at level 100, c at next level, right associativity).
Notation "c ;; k" := (bind c (fun _ => k))
  (at level 100, right associativity).

Definition lift {A} (r : result A) : M A := fun m => (r, m).

(** A call of a library function: the library's state advances and
    the call is recorded with its answer. *)
Definition call {A} (f : W -> A * W) (ev : A -> event pyfloat FLOAT) : M A :=
  fun m =>
    let '(r, w) := f (lib m) in
    (Ok r, {| self := self m; lib := w; calls := calls m ++ [ev r] |}).

(** [self.lib.NAME] for a constant of the header. *)
Definition lib_getattr (name : string) : M Z :=
  fun m =>
    let m' := {| self := self m; lib := lib m;
                 calls := calls m ++ [Getattr name (lib_constant name)] |} in
    match lib_constant name with
    | Some v => (Ok v, m')
    | None => (Raise (AttributeError name), m')
    end.

(** Reading an instance attribute that may be unset. *)
Definition attr {A} (name : string) (field : t -> option A) : M A :=
  fun m =>
    match field (self m) with
    | Some v => (Ok v, m)
    | None => (Raise (AttributeError name), m)
    end.

(** [self.snapshot], [self.width], [self.height] *)
Definition self_snapshot : M Snapshot.t := attr "snapshot" snapshot.
Definition self_width : M Z := attr "width" width.
Definition self_height : M Z := attr "height" height.

Definition get_handle : M Z := fun m => (Ok (_handle (self m)), m).

Definition assign (f : t -> t) : M unit :=
  fun m => (Ok tt, {| self := f (self m); lib := lib m; calls := calls m |}).

Definition set_format (v : Format.t) (c : t) : t :=
  {| _handle := _handle c; format := Some v; snapshot := snapshot c;
     framerate := framerate c; fast_frames_enabled := fast_frames_enabled c;
     width := width c; height := height c |}.
Definition set_snapshot (v : Snapshot.t) (c : t) : t :=
  {| _handle := _handle c; format := format c; snapshot := Some v;
     framerate := framerate c; fast_frames_enabled := fast_frames_enabled c;
     width := width c; height := height c |}.
Definition set_framerate (v : pynum pyfloat) (c : t) : t :=
  {| _handle := _handle c; format := format c; snapshot := snapshot c;
     framerate := v; fast_frames_enabled := fast_frames_enabled c;
     width := width c; height := height c |}.
Definition set_fast_frames_enabled (v : bool) (c : t) : t :=
  {| _handle := _handle c; format := format c; snapshot := snapshot c;
     framerate := framerate c; fast_frames_enabled := v;
     width := width c; height := height c |}.
Definition set_width (v : Z) (c : t) : t :=
  {| _handle := _handle c; format := format c; snapshot := snapshot c;
     framerate := framerate c; fast_frames_enabled := fast_frames_enabled c;
     width := Some v; height := height c |}.
Definition set_height (v : Z) (c : t) : t :=
  {| _handle := _handle c; format := format c; snapshot := snapshot c;
     framerate := framerate c; fast_frames_enabled := fast_frames_enabled c;
     width := width c; height := Some v |}.

Definition get_last_error : M Z :=
  h <- get_handle ;;
  call (LucamGetLastErrorForCamera h) (GetLastErrorForCamera h).

(** [LucamError(source)]: the value is the last error of the camera
    when one is given and the library's last error otherwise. *)
Definition new_LucamError (source : option unit) : M exn :=
  match source with
  | None =>
      value <- call LucamGetLastError GetLastError ;; ret (LucamErr value)
  | Some _ =>
      value <- get_last_error ;; ret (LucamErr value)
  end.

(** [raise LucamError(self)] *)
Definition raise_LucamError {A} : M A :=
  e <- new_LucamError (Some tt) ;;
  raise e.

(** [if not CALL: raise LucamError(self)] *)
Definition check (ok : bool) : M unit :=
  if ok then ret tt else raise_LucamError.

(** Every branch leaves an [int], so the closing [assert] passes.
    For a string, a constant the library does not have makes
    [getattr] raise [AttributeError]; the same is recorded for an
    enumeration member, although Python meets that failure earlier,
    when the enumeration is created. *)
Definition _property_value (property : property_id) : M Z :=
  match property with
  | ByEnum p =>
      match LucamProperty.value p with
      | Some v => ret v
      | None => raise (AttributeError (LucamProperty.symbol p))
      end
  | ByInt n => ret n
  | ByStr s => lib_getattr (property_symbol s)
  end.

Definition get_property (property : property_id) : M (pynum pyfloat) :=
  h <- get_handle ;;
  p <- _property_value property ;;
  r <- call (LucamGetProperty h p) (GetProperty h p) ;;
  match r with
  | Some value => ret (PyFloat (py_of_FLOAT value))
  | None => raise_LucamError
  end.

Definition set_property (property : property_id) (value : pynum pyfloat)
  : M unit :=
  h <- get_handle ;;
  p <- _property_value property ;;
  ok <- call (LucamSetProperty h p value 0) (SetProperty h p value 0) ;;
  check ok.

Definition get_format : M Format.t :=
  h <- get_handle ;;
  r <- call (LucamGetFormat h) (GetFormat h) ;;
  match r with
  | None => raise_LucamError
  | Some (lucam_format, framerate) =>
      format <- lift (Format.from_lucam lucam_format) ;;
      assign (set_format format) ;;
      assign (set_framerate (PyFloat (py_of_FLOAT framerate))) ;;
      assign (set_width (Format.width format)) ;;
      assign (set_height (Format.height format)) ;;
      ret format
  end.

(** A loop [for x in l: acc = body(acc, x)] over the machine. *)
Fixpoint for_each {A X} (body : A -> X -> M A) (l : list X) (acc : A) : M A :=
  match l with
  | [] => ret acc
  | x :: l' => acc' <- body acc x ;; for_each body l' acc'
  end.

(** The value [get_default_snapshot] computes for one annotation. *)
Definition default_value (property : string) : M (pyobj pyfloat) :=
  if String.eqb property "format" then
    value <- get_format ;; ret (Fmt value)
  else if String.eqb property "timeout" then
    ret (Num (PyInt 100))
  else if PyStr.contains "Grn" property then
    value <- get_property (ByStr (PyStr.replace "Grn" "Green" property)) ;;
    ret (Num value)
  else
    value <- get_property (ByStr property) ;; ret (Num value).

Definition get_default_snapshot : M Snapshot.t :=
  kwargs <- for_each
              (fun kwargs property =>
                 value <- default_value property ;;
                 ret (<[property := value]> kwargs))
              Snapshot.__annotations__ ∅ ;;
  snapshot <- lift (Snapshot.cls kwargs) ;;
  assign (set_snapshot snapshot) ;;
  ret snapshot.

Definition enable_fast_frames (snapshot : option Snapshot.t) : M unit :=
  snapshot <- match snapshot with
              | None => self_snapshot
              | Some given => ret given
              end ;;
  h <- get_handle ;;
  lucam_snapshot <- lift (Snapshot.as_lucam snapshot) ;;
  ok <- call (LucamEnableFastFrames h lucam_snapshot)
             (EnableFastFrames h lucam_snapshot) ;;
  check ok ;;
  assign (set_fast_frames_enabled true).

Definition disable_fast_frames : M unit :=
  h <- get_handle ;;
  ok <- call (LucamDisableFastFrames h) (DisableFastFrames h) ;;
  check ok ;;
  assign (set_fast_frames_enabled false).

Definition with_data (frame : np.ndarray) (bytes : list Z) : np.ndarray :=
  {| np.shape := np.shape frame; np.dtype := np.dtype frame;
     np.c_contiguous := np.c_contiguous frame; np.data := bytes |}.

(** The library writes the frame through the buffer it is given;
    its answer carries the bytes the buffer holds afterwards. *)
Definition take_fast_frame : M np.ndarray :=
  rows <- self_height ;;
  columns <- self_width ;;
  frame <- lift (np.ndarray2 rows columns np.uint8) ;;
  let frame := np.ascontiguousarray frame in
  h <- get_handle ;;
  r <- call (LucamTakeFastFrame h (np.data frame))
            (fun r => TakeFastFrame h (rows * columns) (fst r)) ;;
  check (fst r) ;;
  ret (with_data frame (snd r)).

Definition white_balance (start_x start_y : Z) (width height : option Z)
  : M unit :=
  width <- match width with
           | None => self_width
           | Some given => ret given
           end ;;
  height <- match height with
            | None => self_height
            | Some given => ret given
            end ;;
  (fun m => (if fast_frames_enabled (self m)
             then disable_fast_frames else ret tt) m) ;;
  h <- get_handle ;;
  start <- lib_getattr "START_STREAMING" ;;
  ok <- call (LucamStreamVideoControl h start) (StreamVideoControl h start) ;;
  check ok ;;
  h <- get_handle ;;
  ok <- call (LucamOneShotAutoWhiteBalance h start_x start_y width height)
             (OneShotAutoWhiteBalance h start_x start_y width height) ;;
  check ok ;;
  h <- get_handle ;;
  stop <- lib_getattr "STOP_STREAMING" ;;
  ok <- call (LucamStreamVideoControl h stop) (StreamVideoControl h stop) ;;
  check ok ;;
  get_default_snapshot ;;
  enable_fast_frames None.

(** The object [__init__] starts from once the handle is stored:
    the class attributes [framerate = 30] and
    [fast_frames_enabled = False], nothing else assigned. *)
Definition fresh (handle : Z) : t :=
  {| _handle := handle; format := None; snapshot := None;
     framerate := PyInt 30; fast_frames_enabled := false;
     width := None; height := None |}.

(** [LucamCamera(number)], from a library in state [w]. *)
Definition __init__ (number : Z) (w : W) : result unit * machine :=
  let '(handle, w') := LucamCameraOpen number w in
  (get_format ;; get_default_snapshot ;; ret tt)
    {| self := fresh handle; lib := w'; calls := [CameraOpen number handle] |}.


(** *** [get_default_snapshot] as the specification words it

    Each gain or exposure field is the answer to a property query
    under a fixed library constant, the timeout is 100 and the
    format is queried again. *)
Definition query_symbol (symbol : string) : M (pynum pyfloat) :=
  h <- get_handle ;;
  p <- lib_getattr symbol ;;
  r <- call (LucamGetProperty h p) (GetProperty h p) ;;
  match r with
  | Some value => ret (PyFloat (py_of_FLOAT value))
  | None => raise_LucamError
  end.

Definition default_snapshot_by_symbols : M Snapshot.t :=
  exposure <- query_symbol "LUCAM_PROP_EXPOSURE" ;;
  gain <- query_symbol "LUCAM_PROP_GAIN" ;;
  gainRed <- query_symbol "LUCAM_PROP_GAIN_RED" ;;
  gainBlue <- query_symbol "LUCAM_PROP_GAIN_BLUE" ;;
  gainGrn1 <- query_symbol "LUCAM_PROP_GAIN_GREEN1" ;;
  gainGrn2 <- query_symbol "LUCAM_PROP_GAIN_GREEN2" ;;
  format <- get_format ;;
  let snapshot :=
    {| Snapshot.exposure := exposure; Snapshot.gain := gain;
       Snapshot.gainRed := gainRed; Snapshot.gainBlue := gainBlue;
       Snapshot.gainGrn1 := gainGrn1; Snapshot.gainGrn2 := gainGrn2;
       Snapshot.timeout := PyInt 100; Snapshot.format := format |} in
  assign (set_snapshot snapshot) ;;
  ret snapshot.

(** *** The phases of [white_balance]

    The statements of [white_balance] after the point where fast
    frames have been disabled, and after the point where the
    one-shot white balance has succeeded, named so that properties
    can speak about them. *)
Definition refresh_and_enable : M unit :=
  h <- get_handle ;;
  stop <- lib_getattr "STOP_STREAMING" ;;
  ok <- call (LucamStreamVideoControl h stop) (StreamVideoControl h stop) ;;
  check ok ;;
  get_default_snapshot ;;
  enable_fast_frames None.

Definition stream_and_balance (start_x start_y width height : Z) : M unit :=
  h <- get_handle ;;
  start <- lib_getattr "START_STREAMING" ;;
  ok <- call (LucamStreamVideoControl h start) (StreamVideoControl h start) ;;
  check ok ;;
  h <- get_handle ;;
  ok <- call (LucamOneShotAutoWhiteBalance h start_x start_y width height)
             (OneShotAutoWhiteBalance h start_x start_y width height) ;;
  check ok ;;
  refresh_and_enable.

(** What [get_format] leaves in the instance: the format and its
    dimensions, and a format that can be marshalled again. *)
Definition format_cached (f : Format.t) (s : t) : Prop :=
  format s = Some f /\
  width s = Some (Format.width f) /\
  height s = Some (Format.height f) /\
  is_ok (Format.as_lucam f) = true.

(** What [get_default_snapshot] leaves in the instance. *)
Definition snapshot_cached (cached : Snapshot.t) (s : t) : Prop :=
  snapshot s = Some cached /\
  format_cached (Snapshot.format cached) s /\
  Snapshot.timeout cached = PyInt 100 /\
  is_ok (Snapshot.as_lucam cached) = true.

(** *** Reading the record of calls *)

(** The library refused: a [BOOL] answer [FALSE], or a constant the
    library object does not have. *)
Definition refused (e : event pyfloat FLOAT) : bool :=
  match e with
  | Getattr _ ret => negb (bool_decide (is_Some ret))
  | CameraOpen _ _ | GetLastError _ | GetLastErrorForCamera _ _ => false
  | GetProperty _ _ ret => negb (bool_decide (is_Some ret))
  | GetFormat _ ret => negb (bool_decide (is_Some ret))
  | SetProperty _ _ _ _ ret | EnableFastFrames _ _ ret
  | DisableFastFrames _ ret | TakeFastFrame _ _ ret
  | StreamVideoControl _ _ ret
  | OneShotAutoWhiteBalance _ _ _ _ _ ret => negb ret
  end.

(** The program [c], from every state: appends calls that all
    satisfy [T]; raises whenever one of them is refused; and, from
    an instance satisfying [P], either returns with [Q] or raises
    after a refused call. *)
Definition obeys {A} (T : event pyfloat FLOAT -> Prop) (P : t -> Prop)
    (c : M A) (Q : A -> t -> Prop) : Prop :=
  forall m, exists evs,
    calls (snd (c m)) = (calls m ++ evs)%list /\
    Forall T evs /\
    (existsb refused evs = true -> is_ok (fst (c m)) = false) /\
    (P (self m) ->
     match fst (c m) with
     | Ok a => Q a (self (snd (c m)))
     | Raise _ => existsb refused evs = true
     end).

(** The program [c] raises from every state, appending calls that
    satisfy [T]. *)
Definition fails {A} (T : event pyfloat FLOAT -> Prop) (c : M A) : Prop :=
  forall m, exists evs,
    calls (snd (c m)) = (calls m ++ evs)%list /\
    Forall T evs /\
    is_ok (fst (c m)) = false.

(** The calls [get_default_snapshot] may make. *)
Definition snapshot_symbols : list string :=
  ["LUCAM_PROP_EXPOSURE"; "LUCAM_PROP_GAIN"; "LUCAM_PROP_GAIN_RED";
   "LUCAM_PROP_GAIN_BLUE"; "LUCAM_PROP_GAIN_GREEN1";
   "LUCAM_PROP_GAIN_GREEN2"].

Definition snapshot_call (e : event pyfloat FLOAT) : Prop :=
  match e with
  | Getattr name _ => In name snapshot_symbols
  | GetProperty _ _ _ | GetFormat _ _ | GetLastErrorForCamera _ _ => True
  | _ => False
  end.

(** The calls [white_balance] may make for the region given. *)
Definition white_balance_call (start_x start_y width height : Z)
    (e : event pyfloat FLOAT) : Prop :=
  match e with
  | Getattr name _ =>
      In name ("START_STREAMING" :: "STOP_STREAMING" :: snapshot_symbols)
  | OneShotAutoWhiteBalance _ x y w h _ =>
      x = start_x /\ y = start_y /\ w = width /\ h = height
  | CameraOpen _ _ | GetLastError _ | SetProperty _ _ _ _ _
  | TakeFastFrame _ _ _ => False
  | _ => True
  end.


End Session.

End LucamCamera.

(** ** A simulated library

    A stand-in for [lucamapi.dll], used to run the methods on concrete
    inputs: floats are integers, the frame format has eleven separate
    members (five 32-bit, six 16-bit, all unsigned), the camera reports a
    640x480 frame, a property query answers the property number, and
    the functions named in [refused] answer [FALSE] and leave error
    code 5 behind.  With [cameras] cameras attached, opening index [n]
    answers the handle [n] when [1 <= n <= cameras], and otherwise the
    null handle, leaving error code 1 (index below 1) or 18 (no such
    camera) behind.  The other functions do not look at the handle.
    The library state is the last error code. *)
Module Simulated.

Definition members : gmap string CMember :=
  list_to_map
    [("xOffset", {| slot := 0; signed := false; bits := 32 |});
     ("yOffset", {| slot := 1; signed := false; bits := 32 |});
     ("width", {| slot := 2; signed := false; bits := 32 |});
     ("height", {| slot := 3; signed := false; bits := 32 |});
     ("pixelFormat", {| slot := 4; signed := false; bits := 32 |});
     ("subSampleX", {| slot := 5; signed := false; bits := 16 |});
     ("binningX", {| slot := 6; signed := false; bits := 16 |});
     ("flagsX", {| slot := 7; signed := false; bits := 16 |});
     ("subSampleY", {| slot := 8; signed := false; bits := 16 |});
     ("binningY", {| slot := 9; signed := false; bits := 16 |});
     ("flagsY", {| slot := 10; signed := false; bits := 16 |})].

Definition member (attr : string) : CMember :=
  default {| slot := 11; signed := false; bits := 32 |} (members !! attr).

Definition constants : gmap string Z :=
  list_to_map
    [("LUCAM_PROP_EXPOSURE", 20); ("LUCAM_PROP_GAIN", 40);
     ("LUCAM_PROP_GAIN_RED", 41); ("LUCAM_PROP_GAIN_GREEN1", 42);
     ("LUCAM_PROP_GAIN_GREEN2", 43); ("LUCAM_PROP_GAIN_BLUE", 44);
     ("STOP_STREAMING", 0); ("START_STREAMING", 1)].

Definition frame : cdata :=
  list_to_map [(2%nat, 640); (3%nat, 480); (5%nat, 1); (6%nat, 1);
               (8%nat, 1); (9%nat, 1)].

Definition answer {A} (refused : list string) (name : string)
    (yes no : A) (w : Z) : A * Z :=
  if bool_decide (name ∈ refused) then (no, 5) else (yes, w).

Definition open (cameras number : Z) (w : Z) : Z * Z :=
  if ((1 <=? number) && (number <=? cameras))%Z then (number, w)
  else (0, if (number <? 1)%Z then 1 else 18)%Z.

Definition api (cameras : Z) (refused : list string) : API :=
  {| pyfloat := Z;
     FLOAT := Z;
     FLOAT_of_py := fun n => match n with PyInt z => z | PyFloat x => x end;
     py_of_FLOAT := fun x => x;
     frame_member := member;
     lib_constant := fun name => constants !! name;
     uninitialised := fun n => repeat 0 (Z.to_nat n);
     W := Z;
     LucamCameraOpen := open cameras;
     LucamGetLastError := fun w => (w, w);
     LucamGetLastErrorForCamera := fun _ w => (w, w);
     LucamGetProperty := fun _ p =>
       answer refused "LucamGetProperty" (Some p) None;
     LucamSetProperty := fun _ _ _ _ =>
       answer refused "LucamSetProperty" true false;
     LucamGetFormat := fun _ =>
       answer refused "LucamGetFormat" (Some (frame, 30)) None;
     LucamEnableFastFrames := fun _ _ =>
       answer refused "LucamEnableFastFrames" true false;
     LucamDisableFastFrames := fun _ =>
       answer refused "LucamDisableFastFrames" true false;
     LucamTakeFastFrame := fun _ buffer =>
       answer refused "LucamTakeFastFrame"
              (true, map (fun _ => 7) buffer) (false, buffer);
     LucamStreamVideoControl := fun _ _ =>
       answer refused "LucamStreamVideoControl" true false;
     LucamOneShotAutoWhiteBalance := fun _ _ _ _ _ =>
       answer refused "LucamOneShotAutoWhiteBalance" true false |}.

(** A frame format in the simulated layout with two members sharing
    a slot, as a C union of [subSampleX] and [binningX] would. *)
Definition overlaid_member (attr : string) : CMember :=
  if String.eqb attr "binningX"
  then {| slot := 5; signed := false; bits := 16 |}
  else member attr.

Definition overlaid_api : API :=
  let a := api 1 [] in
  {| pyfloat := Z; FLOAT := Z;
     FLOAT_of_py := @FLOAT_of_py a; py_of_FLOAT := @py_of_FLOAT a;
     frame_member := overlaid_member;
     lib_constant := @lib_constant a;
     uninitialised := @uninitialised a;
     W := Z;
     LucamCameraOpen := @LucamCameraOpen a;
     LucamGetLastError := @LucamGetLastError a;
     LucamGetLastErrorForCamera := @LucamGetLastErrorForCamera a;
     LucamGetProperty := @LucamGetProperty a;
     LucamSetProperty := @LucamSetProperty a;
     LucamGetFormat := @LucamGetFormat a;
     LucamEnableFastFrames := @LucamEnableFastFrames a;
     LucamDisableFastFrames := @LucamDisableFastFrames a;
     LucamTakeFastFrame := @LucamTakeFastFrame a;
     LucamStreamVideoControl := @LucamStreamVideoControl a;
     LucamOneShotAutoWhiteBalance := @LucamOneShotAutoWhiteBalance a |}.

Definition a_format : Format.t :=
  {| Format.xOffset := 0; Format.yOffset := 0; Format.width := 640;
     Format.height := 480; Format.pixelFormat := 0; Format.subSampleX := 1;
     Format.binningX := 1; Format.flagsX := 0; Format.subSampleY := 1;
     Format.binningY := 1; Format.flagsY := 0 |}.

Definition a_snapshot : @Snapshot.t (api 1 []) :=
  @Snapshot.Build_t (api 1 [])
    (PyFloat 20) (PyFloat 40) (PyFloat 41) (PyFloat 44) (PyFloat 42)
    (PyFloat 43) (PyInt 100) a_format.

(** A session over a 3-row, 2-column sensor: handle 1, no format or
    snapshot cached, framerate 30, width 2 and height 3; nothing
    called yet and no error pending. *)
Definition small_session (enabled : bool) (refused : list string)
  : @LucamCamera.machine (api 1 refused) :=
  @LucamCamera.Build_machine (api 1 refused)
    (@LucamCamera.Build_t (api 1 refused)
       1 None None (PyInt 30) enabled (Some 2) (Some 3))
    0 [].

End Simulated.

(** ** Proof support *)

(** Unfolds the operations of the session monad. *)
Ltac unfold_session :=
  unfold LucamCamera.check, LucamCamera.raise_LucamError,
    LucamCamera.new_LucamError, LucamCamera.get_last_error, LucamCamera.raise, LucamCamera.bind,
    LucamCamera.get_handle, LucamCamera.call, LucamCamera.assign,
    LucamCamera.ret, LucamCamera.lift, LucamCamera.attr in *.

(** ** [class API]: reading the header

    [load_header] reads [lucamapi.h] with [readlines] and hands its
    text to [ffi.cdef]: everything before the line that announces the
    function definitions in one piece, and then every line from that
    one on by itself, a line that mentions [LUCAM_API] without its
    first ten characters and with [LUCAM_EXPORT] replaced.  The
    embedding starts from the lines read and gives the texts handed to
    [ffi.cdef], in order; what cffi makes of a text is outside the
    module. *)
Module Header.

(** [line[n:]] *)
Fixpoint slice_from (n : nat) (line : string) : string :=
  match n, line with
  | O, _ => line
  | S n', String _ line' => slice_from n' line'
  | S _, EmptyString => EmptyString
  end.

(** The loop over [enumerate(lines)], from index [i] on:
    [function_start] is assigned at every line that contains the
    marker. *)
Fixpoint scan (i : nat) (lines : list string) (function_start : option nat)
  : option nat :=
  match lines with
  | [] => function_start
  | line :: lines' =>
      scan (S i) lines'
           (if PyStr.contains "Function Definitions" line
            then Some i else function_start)
  end.

(** [function_start] after the loop; [None] when it was never
    assigned. *)
Definition function_start (lines : list string) : option nat :=
  scan 0 lines None.

(** The text the second loop hands to [ffi.cdef] for one line. *)
Definition declaration (line : string) : string :=
  if PyStr.contains "LUCAM_API" line
  then PyStr.replace "LUCAM_EXPORT" "__stdcall" (slice_from 10 line)
  else line.

(** Every underscore of [q] is followed by a character other than
    an underscore, as in [LUCAM_EXPORT]. *)
Fixpoint apart (q : string) : bool :=
  match q with
  | EmptyString => true
  | String a q' =>
      (if Ascii.eqb a "_"
       then match q' with
            | String b _ => negb (Ascii.eqb b "_")
            | EmptyString => false
            end
       else true) && apart q'
  end.

Definition newline : string := String "010"%char EmptyString.

(** Reading a local variable that was never assigned raises
    [UnboundLocalError]; otherwise the method gets as far as its
    calls of [ffi.cdef]. *)
Inductive outcome : Type :=
| Cdef (texts : list string)
| UnboundLocalError (name : string).

Definition load_header (lines : list string) : outcome :=
  match function_start lines with
  | None => UnboundLocalError "function_start"
  | Some i =>
      Cdef (PyStr.join newline (take i lines) :: map declaration (drop i lines))
  end.

End Header.

(** ** [Snapshot.from_lucam]

    The classmethod reads every annotated attribute from the struct
    and calls the class with them.  cffi shows a [FLOAT] member as a
    Python float and the embedded [LUCAM_FRAME_FORMAT] as the struct
    itself; a member the module never stored still has the zero of
    [ffi.new].  The generated [__init__] stores its arguments as they
    come, so the instance is given by the attributes it holds. *)
Inductive member_value (pyfloat : Type) : Type :=
| FloatValue (x : pyfloat)
| StructValue (c : cdata).
Arguments FloatValue {pyfloat} x.
Arguments StructValue {pyfloat} c.

Module SnapshotFromLucam.

Section Reading.
Context `{API}.

(** [getattr(lucam_snapshot, attr)] *)
Definition getattr (lucam_snapshot : LUCAM_SNAPSHOT FLOAT) (attr : string)
  : member_value pyfloat :=
  if String.eqb attr "format"
  then StructValue (snapshot_format lucam_snapshot)
  else FloatValue
         (py_of_FLOAT (default (FLOAT_of_py (PyInt 0))
                               (snapshot_floats lucam_snapshot !! attr))).

(** The attributes of the instance [from_lucam] returns. *)
Definition from_lucam (lucam_snapshot : LUCAM_SNAPSHOT FLOAT)
  : gmap string (member_value pyfloat) :=
  foldl (fun kwargs attr => <[attr := getattr lucam_snapshot attr]> kwargs)
        ∅ Snapshot.__annotations__.

End Reading.

End SnapshotFromLucam.

(** ** What a method does to the instance *)

Section Effects.
Context `{API}.
Import LucamCamera.

(** The program [c] relates the instance it starts from to the one
    it leaves by [Rok] when it returns and by [Rerr] when it raises. *)
Definition changes {A} (Rok : A -> t -> t -> Prop) (Rerr : t -> t -> Prop)
    (c : M A) : Prop :=
  forall m,
    match fst (c m) with
    | Ok a => Rok a (self m) (self (snd (c m)))
    | Raise _ => Rerr (self m) (self (snd (c m)))
    end.

(** The program [c] assigns no attribute of the instance. *)
Definition unchanged {A} (c : M A) : Prop :=
  forall m, self (snd (c m)) = self m.

(** The four assignments of [get_format]. *)
Definition with_format (f : Format.t) (rate : FLOAT) (s : t) : t :=
  set_height (Format.height f)
    (set_width (Format.width f)
       (set_framerate (PyFloat (py_of_FLOAT rate)) (set_format f s))).

(** The assignments the methods make: the format with its
    dimensions and the framerate, as read from a struct the library
    filled; a snapshot built around the cached format; the flag. *)
Inductive update : t -> t -> Prop :=
| update_format (c : cdata) (rate : FLOAT) (f : Format.t) (s : t) :
    Format.from_lucam c = Ok f -> update s (with_format f rate s)
| update_snapshot (cached : Snapshot.t) (s : t) :
    format s = Some (Snapshot.format cached) ->
    Snapshot.timeout cached = PyInt 100 ->
    update s (set_snapshot cached s)
| update_flag (b : bool) (s : t) :
    update s (set_fast_frames_enabled b s).





End Effects.

(** ** Using a session

    The methods a caller can invoke on an open session, with their
    arguments.  [convert_frame_to_rgb] and [take_fast_frame_rgb] hand
    the frame to OpenCV and assign nothing, and the text of
    [camera_close] is cut off in the sources: they are left out. *)
Module Caller.

Section Calls.
Context `{API}.
Import LucamCamera.

Inductive method : Type :=
| Call_get_last_error
| Call_get_property (property : property_id)
| Call_set_property (property : property_id) (value : pynum pyfloat)
| Call_get_format
| Call_get_default_snapshot
| Call_enable_fast_frames (snapshot : option Snapshot.t)
| Call_disable_fast_frames
| Call_take_fast_frame
| Call_white_balance (start_x start_y : Z) (width height : option Z).

(** The call, its result dropped. *)
Definition invoke (c : method) : M unit :=
  match c with
  | Call_get_last_error => bind get_last_error (fun _ => ret tt)
  | Call_get_property property => bind (get_property property) (fun _ => ret tt)
  | Call_set_property property value => set_property property value
  | Call_get_format => bind get_format (fun _ => ret tt)
  | Call_get_default_snapshot => bind get_default_snapshot (fun _ => ret tt)
  | Call_enable_fast_frames snapshot => enable_fast_frames snapshot
  | Call_disable_fast_frames => disable_fast_frames
  | Call_take_fast_frame => bind take_fast_frame (fun _ => ret tt)
  | Call_white_balance start_x start_y width height =>
      white_balance start_x start_y width height
  end.

(** The machine after the calls of [script], made one after the
    other by a caller that catches whatever they raise. *)
Definition after (script : list method) (m : machine) : machine :=
  foldl (fun m c => snd (invoke c m)) m script.

End Calls.

End Caller.

(** * Properties *)

(** ** Property names *)

Example property_symbol_gainRed :
  property_symbol "gainRed" = "LUCAM_PROP_GAIN_RED".
Proof. reflexivity. Qed.

Example property_symbol_gain_red :
  property_symbol "gain_red" = "LUCAM_PROP_GAIN_RED".
Proof. reflexivity. Qed.

Example property_symbol_gainGreen1 :
  property_symbol (PyStr.replace "Grn" "Green" "gainGrn1")
  = "LUCAM_PROP_GAIN_GREEN1".
Proof. reflexivity. Qed.

Example property_symbol_leading_capital :
  property_symbol "GainRed" = "LUCAM_PROP_GAIN_RED".
Proof. reflexivity. Qed.

Example property_symbol_capital_run :
  property_symbol "gainRGB" = "LUCAM_PROP_GAIN_R_G_B".
Proof. reflexivity. Qed.

Example property_symbol_empty : property_symbol "" = "LUCAM_PROP_".
Proof. reflexivity. Qed.

Section PropertyNames.






End PropertyNames.



(** ** The error table *)

Lemma CODES_keys :
  map fst LucamError.CODES_items = map Z.of_nat (seq 0 100).
Proof. reflexivity. Qed.

Lemma CODES_keys_NoDup : NoDup (LucamError.CODES_items.*1).
Proof.
  change (NoDup (map fst LucamError.CODES_items)). rewrite CODES_keys.
  apply (NoDup_fmap_2 Z.of_nat). apply NoDup_seq.
Qed.

Lemma CODES_key_range (code : Z) :
  code ∈ LucamError.CODES_items.*1 <-> (0 <= code <= 99)%Z.
Proof.
  change (code ∈ map fst LucamError.CODES_items <-> (0 <= code <= 99)%Z).
  rewrite CODES_keys. rewrite list_elem_of_In, in_map_iff. split.
  - intros (n & <- & Hn). apply in_seq in Hn. lia.
  - intros Hc. exists (Z.to_nat code). split; [lia|]. apply in_seq. lia.
Qed.

(** C4: for every code from 0 to 99, rendering the error returns the
    one text the table registers for that code; for every other
    integer the lookup raises [KeyError], and no text is returned. *)
Theorem LucamError_str_table (code : Z) :
  ((0 <= code <= 99)%Z ->
   exists text,
     In (code, text) LucamError.CODES_items /\
     (forall text', In (code, text') LucamError.CODES_items -> text' = text) /\
     LucamError.__str__ code = Ok text) /\
  ((code < 0 \/ 99 < code)%Z ->
   LucamError.__str__ code = Raise (KeyError code)).
Proof.
  unfold LucamError.__str__, LucamError.CODES. split.
  - intros Hc. apply CODES_key_range in Hc.
    apply list_elem_of_fmap in Hc as ([k text] & Hk & Hin). simpl in Hk. subst k.
    exists text. split; [by apply list_elem_of_In|]. split.
    + intros text' Hin'. apply list_elem_of_In in Hin'.
      apply (elem_of_list_to_map (M:=gmap Z)) in Hin, Hin';
        try apply CODES_keys_NoDup. congruence.
    + apply (elem_of_list_to_map (M:=gmap Z)) in Hin;
        [|apply CODES_keys_NoDup]. by rewrite Hin.
  - intros Hc.
    assert (Hn : code ∉ LucamError.CODES_items.*1).
    { rewrite CODES_key_range. lia. }
    apply (not_elem_of_list_to_map (M:=gmap Z)) in Hn. by rewrite Hn.
Qed.

Lemma LucamError_str_table_witness :
  (exists text,
     In (46%Z, text) LucamError.CODES_items /\
     (forall text', In (46%Z, text') LucamError.CODES_items -> text' = text) /\
     LucamError.__str__ 46 = Ok text) /\
  LucamError.__str__ 100 = Raise (KeyError 100).
Proof.
  split.
  - apply (proj1 (LucamError_str_table 46)). lia.
  - apply (proj2 (LucamError_str_table 100)). lia.
Defined.

Example LucamError_str_1 :
  LucamError.__str__ 1 =
  Ok "NoSuchIndex
            The index passed to LucamCameraOpen was 0. It must be >= 1.".
Proof. reflexivity. Qed.

Example LucamError_str_negative :
  LucamError.__str__ (-1) = Raise (KeyError (-1)).
Proof. reflexivity. Qed.

(** ** Marshalling a [Format] *)

Section FormatMarshalling.
Context `{API}.

Lemma c_read_fits (m : CMember) (v : Z) :
  fits m v = true -> c_read m v = v.
Proof.
  unfold fits, c_read. destruct (signed m); intros Hv;
    apply andb_true_iff in Hv as [Hlo Hhi];
    apply Z.leb_le in Hlo; apply Z.ltb_lt in Hhi.
  - assert (Hp : (2 ^ Z.pos (bits m) = 2 * 2 ^ (Z.pos (bits m) - 1))%Z).
    { rewrite <- Z.pow_succ_r by lia. f_equal. lia. }
    rewrite Z.mod_small by lia. lia.
  - apply Z.mod_small. lia.
Qed.

Lemma fits_c_read (m : CMember) (raw : Z) : fits m (c_read m raw) = true.
Proof.
  unfold fits, c_read.
  assert (Hpos : (0 < 2 ^ Z.pos (bits m))%Z) by (apply Z.pow_pos_nonneg; lia).
  destruct (signed m); apply andb_true_iff; rewrite Z.leb_le, Z.ltb_lt.
  - assert (Hp : (2 ^ Z.pos (bits m) = 2 * 2 ^ (Z.pos (bits m) - 1))%Z).
    { rewrite <- Z.pow_succ_r by lia. f_equal. lia. }
    pose proof (Z.mod_pos_bound (raw + 2 ^ (Z.pos (bits m) - 1))
                  (2 ^ Z.pos (bits m)) Hpos). lia.
  - pose proof (Z.mod_pos_bound raw (2 ^ Z.pos (bits m)) Hpos). lia.
Qed.

Lemma stored_cons (g : string -> Z) (a : string) (l : list string) (c : cdata) :
  stored g (a :: l) c = stored g l (<[slot (frame_member a) := g a]> c).
Proof. reflexivity. Qed.

Lemma setattr_loop (f : Format.t) (l : list string) (c : cdata) :
  Forall (fun attr => exists v, Format.getattr f attr = Ok v /\
                                fits (frame_member attr) v = true) l ->
  result_for (fun c attr =>
                result_bind (Format.getattr f attr) (c_setattr c attr)) l c
  = Ok (stored (Format.value f) l c).
Proof.
  revert c. induction l as [|attr l IH]; intros c Hl; [reflexivity|].
  apply Forall_cons in Hl as [(v & Hget & Hfits) Hrest].
  assert (Hv : Format.value f attr = v)
    by (unfold Format.value; rewrite Hget; reflexivity).
  cbn [result_for]. rewrite stored_cons, Hv, Hget. cbn [result_bind].
  unfold c_setattr at 1. rewrite Hfits.
  cbn [result_bind]. apply IH. assumption.
Qed.

Lemma setattr_loop_overflow (f : Format.t) (l : list string) (c : cdata) :
  Forall (fun attr => is_ok (Format.getattr f attr) = true) l ->
  Exists (fun attr => fits (frame_member attr) (Format.value f attr) = false) l ->
  exists attr,
    result_for (fun c attr =>
                  result_bind (Format.getattr f attr) (c_setattr c attr)) l c
    = Raise (OverflowError attr).
Proof.
  revert c. induction l as [|attr l IH]; intros c Hget Hl; [inversion Hl|].
  apply Forall_cons in Hget as [Hattr Hget].
  cbn [result_for]. unfold Format.value in Hl, IH.
  destruct (Format.getattr f attr) as [v|e] eqn:Hv; [|discriminate].
  cbn [result_bind]. unfold c_setattr at 1.
  destruct (fits (frame_member attr) v) eqn:Hfits.
  - cbn [result_bind]. apply IH; [assumption|].
    apply Exists_cons in Hl as [Hhere|Hlater]; [|assumption].
    rewrite Hv in Hhere. congruence.
  - exists attr. reflexivity.
Qed.

(** A field value that does not fit its member makes [as_lucam]
    raise, whatever the declaration of the struct. *)
Lemma as_lucam_overflow (f : Format.t) :
  Exists (fun '(attr, v) => fits (frame_member attr) v = false)
         (Format.items f) ->
  exists attr, Format.as_lucam f = Raise (OverflowError attr).
Proof.
  intros Hbad. unfold Format.as_lucam. apply setattr_loop_overflow.
  - unfold Format.__annotations__.
    repeat (apply Forall_cons; split; [reflexivity|]). constructor.
  - unfold Format.items in Hbad. unfold Format.__annotations__.
    repeat (apply Exists_cons in Hbad as [Hbad|Hbad];
            [apply Exists_cons; left; exact Hbad|apply Exists_cons; right]).
    inversion Hbad.
Qed.

(** No C integer type of at most 64 bits holds 2^64. *)
Lemma fits_two_to_64 (m : CMember) :
  (bits m <= 64)%positive -> fits m (2 ^ 64) = false.
Proof.
  intros Hbits. unfold fits.
  assert (Hle : (2 ^ Z.pos (bits m) <= 2 ^ 64)%Z)
    by (apply Z.pow_le_mono_r; lia).
  assert (Hle' : (2 ^ (Z.pos (bits m) - 1) <= 2 ^ 64)%Z)
    by (apply Z.pow_le_mono_r; lia).
  destruct (signed m); apply andb_false_iff; right; apply Z.ltb_ge; lia.
Qed.

Lemma stored_other (g : string -> Z) (l : list string) (c : cdata) (k : nat) :
  k ∉ map (fun attr => slot (frame_member attr)) l ->
  stored g l c !! k = c !! k.
Proof.
  revert c. induction l as [|attr l IH]; intros c Hk; [reflexivity|].
  cbn [map] in Hk. apply not_elem_of_cons in Hk as [Hne Hk].
  rewrite stored_cons, IH by assumption.
  by rewrite lookup_insert_ne.
Qed.

Lemma stored_member (g : string -> Z) (l : list string) (c : cdata)
    (attr : string) :
  NoDup (map (fun attr => slot (frame_member attr)) l) ->
  attr ∈ l ->
  stored g l c !! slot (frame_member attr) = Some (g attr).
Proof.
  revert c. induction l as [|a l IH]; intros c Hnd Hin; [by inversion Hin|].
  cbn [map] in Hnd. apply NoDup_cons in Hnd as [Hfresh Hnd].
  rewrite stored_cons.
  apply elem_of_cons in Hin as [->|Hin].
  - rewrite stored_other by assumption. apply lookup_insert_eq.
  - by apply IH.
Qed.

(** The keyword arguments collected by [from_lucam] determine the
    record built from them. *)
Lemma cls_collected (g : string -> Z) :
  Format.cls (foldl (fun kwargs attr => <[attr := g attr]> kwargs)
                    ∅ Format.__annotations__)
  = Ok {| Format.xOffset := g "xOffset"; Format.yOffset := g "yOffset";
          Format.width := g "width"; Format.height := g "height";
          Format.pixelFormat := g "pixelFormat";
          Format.subSampleX := g "subSampleX";
          Format.binningX := g "binningX"; Format.flagsX := g "flagsX";
          Format.subSampleY := g "subSampleY";
          Format.binningY := g "binningY"; Format.flagsY := g "flagsY" |}.
Proof. reflexivity. Qed.

Lemma from_lucam_members (c : cdata) :
  Format.from_lucam c
  = Ok {| Format.xOffset := c_getattr c "xOffset";
          Format.yOffset := c_getattr c "yOffset";
          Format.width := c_getattr c "width";
          Format.height := c_getattr c "height";
          Format.pixelFormat := c_getattr c "pixelFormat";
          Format.subSampleX := c_getattr c "subSampleX";
          Format.binningX := c_getattr c "binningX";
          Format.flagsX := c_getattr c "flagsX";
          Format.subSampleY := c_getattr c "subSampleY";
          Format.binningY := c_getattr c "binningY";
          Format.flagsY := c_getattr c "flagsY" |}.
Proof. apply (cls_collected (c_getattr c)). Qed.

(** Whatever the library left in the struct, the [Format] read from
    it can be marshalled again. *)
Lemma as_lucam_from_lucam (c : cdata) (f : Format.t) :
  Format.from_lucam c = Ok f -> is_ok (Format.as_lucam f) = true.
Proof.
  rewrite from_lucam_members. intros [= <-].
  unfold Format.as_lucam. rewrite setattr_loop; [reflexivity|].
  unfold Format.__annotations__.
  repeat (apply Forall_cons; split;
          [eexists; split; [reflexivity|apply fits_c_read]|]).
  constructor.
Qed.

End FormatMarshalling.

(** C3, as stated, fails on a [Format] holding an integer that the
    native member cannot store: cffi refuses it, so [as_lucam] raises
    and nothing is converted back.  2^64 exceeds every C integer type;
    here [xOffset] is a 32-bit unsigned member. *)
Lemma Format_roundtrip_overflow_counterexample :
  let big :=
    {| Format.xOffset := 2 ^ 64; Format.yOffset := 0; Format.width := 640;
       Format.height := 480; Format.pixelFormat := 0; Format.subSampleX := 1;
       Format.binningX := 1; Format.flagsX := 0; Format.subSampleY := 1;
       Format.binningY := 1; Format.flagsY := 0 |} in
  result_bind (Format.as_lucam (H := Simulated.api 1 []) big)
              (Format.from_lucam (H := Simulated.api 1 []))
  = Raise (OverflowError "xOffset") /\
  result_bind (Format.as_lucam (H := Simulated.api 1 []) big)
              (Format.from_lucam (H := Simulated.api 1 []))
  <> Ok big.
Proof. split; [reflexivity|discriminate]. Qed.

(** Members that share storage do not survive the round trip either:
    with [binningX] overlaid on [subSampleX], the value written last is
    read back for both. *)
Example Format_roundtrip_overlaid :
  let f :=
    {| Format.xOffset := 0; Format.yOffset := 0; Format.width := 640;
       Format.height := 480; Format.pixelFormat := 0; Format.subSampleX := 1;
       Format.binningX := 2; Format.flagsX := 0; Format.subSampleY := 1;
       Format.binningY := 1; Format.flagsY := 0 |} in
  Format.subSampleX <$>
    (match result_bind (Format.as_lucam (H := Simulated.overlaid_api) f)
                       (Format.from_lucam (H := Simulated.overlaid_api)) with
     | Ok f' => Some f'
     | Raise _ => None
     end)
  = Some 2%Z.
Proof. reflexivity. Qed.

(** C3 (amended): for every [Format] whose eleven field values fit the
    integer types of the corresponding members of [LUCAM_FRAME_FORMAT],
    and a declaration that stores the eleven members separately,
    [as_lucam] followed by [from_lucam] yields the original record. *)
Theorem Format_roundtrip `{API} (f : Format.t) :
  Forall (fun '(attr, v) => fits (frame_member attr) v = true) (Format.items f) ->
  NoDup (map (fun attr => slot (frame_member attr)) Format.__annotations__) ->
  result_bind (Format.as_lucam f) Format.from_lucam = Ok f.
Proof.
  intros Hfits Hsep.
  assert (Hall : Forall (fun attr => exists v, Format.getattr f attr = Ok v /\
                                     fits (frame_member attr) v = true)
                   Format.__annotations__).
  { unfold Format.items in Hfits. unfold Format.__annotations__.
    repeat (apply Forall_cons in Hfits as [? Hfits]).
    repeat (apply Forall_cons; split;
            [eexists; split; [reflexivity|assumption]|]).
    constructor. }
  unfold Format.as_lucam. rewrite setattr_loop by assumption.
  cbn [result_bind]. rewrite from_lucam_members.
  assert (Hget : forall attr, attr ∈ Format.__annotations__ ->
            c_getattr (stored (Format.value f) Format.__annotations__ ffi_new) attr
            = Format.value f attr).
  { intros attr Hin. unfold c_getattr.
    rewrite stored_member by assumption. cbn [default].
    apply c_read_fits. rewrite Forall_forall in Hall.
    destruct (Hall _ Hin) as (v & Hv & Hfit).
    unfold Format.value. rewrite Hv. exact Hfit. }
  rewrite !Hget by (apply list_elem_of_In; cbn; tauto).
  destruct f; reflexivity.
Qed.

Lemma Format_roundtrip_witness :
  result_bind (Format.as_lucam (H := Simulated.api 1 []) Simulated.a_format)
              (Format.from_lucam (H := Simulated.api 1 []))
  = Ok Simulated.a_format.
Proof.
  apply (Format_roundtrip (H := Simulated.api 1 []) Simulated.a_format).
  - unfold Format.items.
    repeat (apply Forall_cons; split; [reflexivity|]). constructor.
  - refine (bool_decide_unpack _ _). vm_compute. exact I.
Defined.

(** ** Reasoning about session programs *)

Section Programs.
Context `{API}.
Import LucamCamera.

Lemma bind_assoc {A B C} (c : M A) (f : A -> M B) (g : B -> M C) m :
  bind (bind c f) g m = bind c (fun a => bind (f a) g) m.
Proof. unfold bind. destruct (c m) as [[a|e] m']; reflexivity. Qed.

Lemma bind_ext {A B} (c : M A) (f g : A -> M B) m :
  (forall a m', f a m' = g a m') -> bind c f m = bind c g m.
Proof. intros Hfg. unfold bind. destruct (c m) as [[a|e] m']; auto. Qed.

Lemma bind_ret {A B} (a : A) (k : A -> M B) m : bind (ret a) k m = k a m.
Proof. reflexivity. Qed.

Lemma bind_head {A B} (c c' : M A) (k : A -> M B) m :
  (forall m', c m' = c' m') -> bind c k m = bind c' k m.
Proof. intros Hc. unfold bind. rewrite Hc. reflexivity. Qed.

Lemma bind_head_at {A B} (c c' : M A) (k : A -> M B) m :
  c m = c' m -> bind c k m = bind c' k m.
Proof. intros Hc. unfold bind. rewrite Hc. reflexivity. Qed.


Lemma bind_ok {A B} (c : M A) (k : A -> M B) m b :
  fst (bind c k m) = Ok b ->
  exists a, fst (c m) = Ok a /\ bind c k m = k a (snd (c m)).
Proof.
  unfold bind. destruct (c m) as [[a|e] m']; simpl; [|discriminate].
  intros _. exists a. split; reflexivity.
Qed.

Lemma obeys_ext {A} T P (c c' : M A) Q :
  (forall m, c m = c' m) -> obeys T P c Q -> obeys T P c' Q.
Proof. intros Heq Hc m. rewrite <- Heq. apply Hc. Qed.

Lemma obeys_conseq {A} (T T' : event pyfloat FLOAT -> Prop) (P P' : t -> Prop)
    (c : M A) (Q Q' : A -> t -> Prop) :
  (forall e, T e -> T' e) -> (forall s, P' s -> P s) ->
  (forall a s, Q a s -> Q' a s) ->
  obeys T P c Q -> obeys T' P' c Q'.
Proof.
  intros HT HP HQ Hc m. destruct (Hc m) as (evs & Hcalls & Hall & Hstrict & Hflow).
  exists evs. repeat split; try assumption.
  - eapply Forall_impl; eauto.
  - intros Hpre. specialize (Hflow (HP _ Hpre)).
    destruct (fst (c m)); auto.
Qed.

Lemma obeys_post {A} T P (c : M A) (Q Q' : A -> t -> Prop) :
  (forall a s, Q a s -> Q' a s) -> obeys T P c Q -> obeys T P c Q'.
Proof. intros HQ. apply obeys_conseq; auto. Qed.

Lemma obeys_calls {A} (T T' : event pyfloat FLOAT -> Prop) P (c : M A) Q :
  (forall e, T e -> T' e) -> obeys T P c Q -> obeys T' P c Q.
Proof. intros HT. apply obeys_conseq; auto. Qed.

Lemma obeys_bind {A B} T P (c : M A) Q1 (k : A -> M B) Q2 :
  obeys T P c Q1 -> (forall a, obeys T (Q1 a) (k a) Q2) ->
  obeys T P (bind c k) Q2.
Proof.
  intros Hc Hk m. destruct (Hc m) as (evs1 & Hcalls1 & Hall1 & Hstrict1 & Hflow1).
  unfold bind. destruct (c m) as [[a|e] m1]; cbn [fst snd] in *.
  - destruct (Hk a m1) as (evs2 & Hcalls2 & Hall2 & Hstrict2 & Hflow2).
    exists (evs1 ++ evs2)%list. repeat split.
    + rewrite Hcalls2, Hcalls1. symmetry. apply app_assoc.
    + apply Forall_app. split; assumption.
    + rewrite existsb_app. intros Hr. apply orb_true_iff in Hr as [Hr|Hr].
      * specialize (Hstrict1 Hr). discriminate.
      * auto.
    + intros Hpre. specialize (Hflow2 (Hflow1 Hpre)).
      destruct (fst (k a m1)); [assumption|].
      rewrite existsb_app, Hflow2. apply orb_true_r.
  - exists evs1. repeat split; auto.
Qed.

Lemma obeys_ret {A} T P (a : A) :
  obeys T P (ret a) (fun a' s => P s /\ a' = a).
Proof.
  intros m. exists []. cbn. rewrite app_nil_r.
  repeat split; auto; discriminate.
Qed.

Lemma obeys_lift {A} T (P : t -> Prop) (r : result A) :
  (forall s, P s -> is_ok r = true) ->
  obeys T P (lift r) (fun a s => P s /\ r = Ok a).
Proof.
  intros Hr m. exists []. cbn. rewrite app_nil_r.
  repeat split; auto; try discriminate.
  intros Hpre. specialize (Hr _ Hpre). destruct r; [auto|discriminate].
Qed.

Lemma obeys_attr {A} T (P : t -> Prop) (name : string) (field : t -> option A) :
  (forall s, P s -> is_Some (field s)) ->
  obeys T P (attr name field) (fun a s => P s /\ field s = Some a).
Proof.
  intros Hset m. exists []. unfold attr.
  destruct (field (self m)) as [v|] eqn:Hv; cbn [fst snd];
    rewrite app_nil_r; repeat split; auto; try discriminate.
  intros Hpre. destruct (Hset _ Hpre) as [v Hv']. congruence.
Qed.

Lemma obeys_get_handle T (P : t -> Prop) :
  obeys T P get_handle (fun h s => P s /\ h = _handle s).
Proof.
  intros m. exists []. cbn. rewrite app_nil_r.
  repeat split; auto; discriminate.
Qed.

Lemma obeys_assign T (P : t -> Prop) (f : t -> t) :
  obeys T P (assign f) (fun _ s' => exists s, P s /\ s' = f s).
Proof.
  intros m. exists []. cbn. rewrite app_nil_r.
  repeat split; auto; try discriminate. intros Hpre. eauto.
Qed.

Lemma obeys_lib_getattr (T : event pyfloat FLOAT -> Prop) (P : t -> Prop)
    (name : string) :
  T (Getattr name (lib_constant name)) ->
  obeys T P (lib_getattr name) (fun _ s => P s).
Proof.
  intros HT m. exists [Getattr name (lib_constant name)]. unfold lib_getattr.
  destruct (lib_constant name) as [v|]; cbn; repeat split; auto;
    discriminate.
Qed.


Lemma fails_bind {A B} T (c : M A) (k : A -> M B) :
  fails T c -> fails T (bind c k).
Proof.
  intros Hc m. destruct (Hc m) as (evs & Hcalls & Hall & Hraise).
  exists evs. unfold bind. destruct (c m) as [[a|e] m']; cbn [fst snd] in *;
    [discriminate|auto].
Qed.

Lemma fails_raise_LucamError {A} (T : event pyfloat FLOAT -> Prop) :
  (forall handle code, T (GetLastErrorForCamera handle code)) ->
  fails T (@raise_LucamError _ A).
Proof.
  intros HT m. unfold_session.
  destruct (LucamGetLastErrorForCamera (_handle (self m)) (lib m)) as [code w] eqn:E.
  exists [GetLastErrorForCamera (_handle (self m)) code]. cbn.
  repeat split; auto.
Qed.

(** A library call followed by its continuation: the continuation
    after a refusal must raise. *)
Lemma obeys_call_bind {A B} (T : event pyfloat FLOAT -> Prop) (P : t -> Prop)
    (f : W -> A * W) (ev : A -> event pyfloat FLOAT) (k : A -> M B) Q :
  (forall r, T (ev r)) ->
  (forall r, refused (ev r) = true -> fails T (k r)) ->
  (forall r, refused (ev r) = false -> obeys T P (k r) Q) ->
  obeys T P (bind (call f ev) k) Q.
Proof.
  intros HT Hfail Hgo m. unfold bind, call.
  destruct (f (lib m)) as [r w] eqn:E.
  set (m1 := {| self := self m; lib := w; calls := (calls m ++ [ev r])%list |}).
  destruct (refused (ev r)) eqn:Hr.
  - destruct (Hfail r Hr m1) as (evs & Hcalls & Hall & Hraise).
    exists (ev r :: evs). repeat split.
    + rewrite Hcalls. subst m1. cbn. rewrite <- app_assoc. reflexivity.
    + constructor; auto.
    + intros _. assumption.
    + intros _. destruct (fst (k r m1)); [discriminate|].
      cbn. rewrite Hr. reflexivity.
  - destruct (Hgo r Hr m1) as (evs & Hcalls & Hall & Hstrict & Hflow).
    exists (ev r :: evs). repeat split.
    + rewrite Hcalls. subst m1. cbn. rewrite <- app_assoc. reflexivity.
    + constructor; auto.
    + cbn. rewrite Hr. cbn. assumption.
    + intros Hpre. specialize (Hflow Hpre).
      destruct (fst (k r m1)); [assumption|]. cbn. rewrite Hr. assumption.
Qed.

End Programs.

(** ** The methods of the session *)

Section Methods.
Context `{API}.
Import LucamCamera.

Lemma as_lucam_step_number (snapshot : Snapshot.t)
    (acc : LUCAM_SNAPSHOT FLOAT) (attr : string) (n : pynum pyfloat) :
  Snapshot.getattr snapshot attr = Ok (Num n) ->
  String.eqb attr "format" = false ->
  Snapshot.as_lucam_step snapshot acc attr
  = Ok {| snapshot_floats := <[attr := FLOAT_of_py n]> (snapshot_floats acc);
          snapshot_format := snapshot_format acc |}.
Proof.
  intros Hget Hattr. unfold Snapshot.as_lucam_step.
  rewrite Hget, Hattr. reflexivity.
Qed.

Lemma as_lucam_step_format (snapshot : Snapshot.t)
    (acc : LUCAM_SNAPSHOT FLOAT) :
  Snapshot.as_lucam_step snapshot acc "format"
  = result_bind (Format.as_lucam (Snapshot.format snapshot))
      (fun frame => Ok {| snapshot_floats := snapshot_floats acc;
                          snapshot_format := frame |}).
Proof. destruct snapshot. reflexivity. Qed.

Lemma Snapshot_as_lucam_format (snapshot : Snapshot.t) :
  Snapshot.as_lucam snapshot =
  result_bind (Format.as_lucam (Snapshot.format snapshot))
    (fun frame =>
       Ok {| snapshot_floats :=
               <["timeout" := FLOAT_of_py (Snapshot.timeout snapshot)]>
               (<["gainGrn2" := FLOAT_of_py (Snapshot.gainGrn2 snapshot)]>
               (<["gainGrn1" := FLOAT_of_py (Snapshot.gainGrn1 snapshot)]>
               (<["gainBlue" := FLOAT_of_py (Snapshot.gainBlue snapshot)]>
               (<["gainRed" := FLOAT_of_py (Snapshot.gainRed snapshot)]>
               (<["gain" := FLOAT_of_py (Snapshot.gain snapshot)]>
               (<["exposure" := FLOAT_of_py (Snapshot.exposure snapshot)]>
                ∅))))));
             snapshot_format := frame |}).
Proof.
  unfold Snapshot.as_lucam, Snapshot.__annotations__.
  cbn [result_for].
  do 7 (erewrite as_lucam_step_number;
        [|destruct snapshot; reflexivity|reflexivity];
        cbn [result_bind snapshot_floats snapshot_format]).
  rewrite as_lucam_step_format.
  destruct (Format.as_lucam (Snapshot.format snapshot)); reflexivity.
Qed.

Lemma Snapshot_as_lucam_ok (snapshot : Snapshot.t) :
  is_ok (Format.as_lucam (Snapshot.format snapshot)) = true ->
  is_ok (Snapshot.as_lucam snapshot) = true.
Proof.
  rewrite Snapshot_as_lucam_format.
  destruct (Format.as_lucam (Snapshot.format snapshot)); auto.
Qed.

Lemma obeys_query_symbol (T : event pyfloat FLOAT -> Prop) (P : t -> Prop)
    (symbol : string) :
  T (Getattr symbol (lib_constant symbol)) ->
  (forall handle p r, T (GetProperty handle p r)) ->
  (forall handle code, T (GetLastErrorForCamera handle code)) ->
  obeys T P (query_symbol symbol) (fun _ s => P s).
Proof.
  intros Hsym Hget Herr. unfold query_symbol.
  eapply obeys_bind; [apply obeys_get_handle|]. intros handle.
  eapply obeys_bind; [apply obeys_lib_getattr; exact Hsym|]. intros p.
  apply obeys_call_bind.
  - intros r. apply Hget.
  - intros [v|] Hr; [discriminate|]. apply fails_raise_LucamError, Herr.
  - intros [v|] Hr; [|discriminate].
    eapply obeys_conseq; [| |
      |apply (obeys_ret T (fun s => P s /\ handle = _handle s))]; cbn; tauto.
Qed.

Lemma obeys_get_format (T : event pyfloat FLOAT -> Prop) (P : t -> Prop) :
  (forall handle r, T (GetFormat handle r)) ->
  (forall handle code, T (GetLastErrorForCamera handle code)) ->
  obeys T P get_format format_cached.
Proof.
  intros Hget Herr. unfold get_format.
  eapply obeys_bind; [apply obeys_get_handle|]. intros handle.
  apply obeys_call_bind.
  - intros r. apply Hget.
  - intros [v|] Hr; [discriminate|]. apply fails_raise_LucamError, Herr.
  - intros [[c fr]|] Hr; [|discriminate].
    eapply obeys_bind; [apply obeys_lift|].
    { intros _ _. by rewrite from_lucam_members. }
    intros f.
    eapply obeys_bind; [apply obeys_assign|]. intros ?.
    eapply obeys_bind; [apply obeys_assign|]. intros ?.
    eapply obeys_bind; [apply obeys_assign|]. intros ?.
    eapply obeys_bind; [apply obeys_assign|]. intros ?.
    eapply obeys_conseq; [| | |apply obeys_ret];
      [intros e He; exact He|intros s Hs; exact Hs|].
    cbn beta. intros f' s [(s3 & (s2 & (s1 & (s0 & [_ Hf] & E0) & E1) & E2) & E3) E4].
    subst. unfold format_cached. cbn. repeat split.
    eapply as_lucam_from_lucam; eassumption.
Qed.

Lemma snapshot_call_symbol (symbol : string) (ret : option Z) :
  In symbol snapshot_symbols -> snapshot_call (Getattr symbol ret).
Proof. auto. Qed.

Lemma obeys_default_snapshot_by_symbols (P : t -> Prop) :
  obeys snapshot_call P default_snapshot_by_symbols snapshot_cached.
Proof.
  unfold default_snapshot_by_symbols.
  do 6 (eapply obeys_bind;
        [apply obeys_query_symbol;
         [apply snapshot_call_symbol; cbn; tauto | intros; exact I ..]
        |intros ?]).
  eapply obeys_bind; [apply obeys_get_format; intros; exact I|]. intros f.
  eapply obeys_bind; [apply obeys_assign|]. intros ?.
  eapply obeys_conseq; [| | |apply obeys_ret];
      [intros e He; exact He|intros s Hs; exact Hs|].
  cbn beta. intros snapshot s [(s0 & Hf & E0) E1]. subst.
  destruct Hf as (Hfmt & Hw & Hh & Hok).
  unfold snapshot_cached, format_cached.
  cbn [LucamCamera.snapshot set_snapshot format width height
       Snapshot.format Snapshot.timeout].
  repeat split; try assumption.
  apply Snapshot_as_lucam_ok. exact Hok.
Qed.

Lemma Snapshot_cls_collected (a b c d e f : pynum pyfloat) (fmt : Format.t) :
  Snapshot.cls
    (<["format" := Fmt fmt]>
    (<["timeout" := Num (PyInt 100)]>
    (<["gainGrn2" := Num f]>
    (<["gainGrn1" := Num e]>
    (<["gainBlue" := Num d]>
    (<["gainRed" := Num c]>
    (<["gain" := Num b]>
    (<["exposure" := Num a]> ∅))))))))
  = Ok {| Snapshot.exposure := a; Snapshot.gain := b; Snapshot.gainRed := c;
          Snapshot.gainBlue := d; Snapshot.gainGrn1 := e;
          Snapshot.gainGrn2 := f; Snapshot.timeout := PyInt 100;
          Snapshot.format := fmt |}.
Proof. reflexivity. Qed.

(** One turn of the loop of [get_default_snapshot]. *)
Lemma default_snapshot_turn {B} (value : M (pyobj pyfloat))
    (property : string) (rest : list string)
    (kwargs : gmap string (pyobj pyfloat))
    (k : gmap string (pyobj pyfloat) -> M B) m :
  (forall m', default_value property m' = value m') ->
  bind (for_each (fun kwargs property =>
                    bind (default_value property)
                         (fun value => ret (<[property := value]> kwargs)))
                 (property :: rest) kwargs) k m
  = bind value
      (fun v =>
         bind (for_each (fun kwargs property =>
                           bind (default_value property)
                                (fun value => ret (<[property := value]> kwargs)))
                        rest (<[property := v]> kwargs)) k) m.
Proof.
  intros Hvalue. cbn [for_each]. rewrite !bind_assoc.
  rewrite (bind_head _ value) by assumption.
  apply bind_ext. reflexivity.
Qed.

Lemma default_value_query (property symbol : string) m :
  String.eqb property "format" = false ->
  String.eqb property "timeout" = false ->
  property_symbol
    (if PyStr.contains "Grn" property
     then PyStr.replace "Grn" "Green" property else property) = symbol ->
  default_value property m
  = bind (query_symbol symbol) (fun value => ret (Num value)) m.
Proof.
  intros Hf Ht <-. unfold default_value. rewrite Hf, Ht.
  destruct (PyStr.contains "Grn" property); reflexivity.
Qed.

(** The loop over the annotations of [Snapshot] is the sequence of
    queries the specification lists. *)
Lemma get_default_snapshot_by_symbols m :
  get_default_snapshot m = default_snapshot_by_symbols m.
Proof.
  unfold get_default_snapshot, default_snapshot_by_symbols,
    Snapshot.__annotations__.
  do 6 (erewrite default_snapshot_turn;
        [|intros; apply default_value_query; reflexivity];
        rewrite bind_assoc; apply bind_ext; intros ? ?;
        rewrite bind_ret).
  rewrite (default_snapshot_turn (ret (Num (PyInt 100)))) by reflexivity.
  rewrite bind_ret.
  rewrite (default_snapshot_turn
             (bind get_format (fun value => ret (Fmt value)))) by reflexivity.
  rewrite bind_assoc. apply bind_ext. intros fmt m1.
  rewrite bind_ret. cbn [for_each]. rewrite bind_ret.
  rewrite Snapshot_cls_collected. reflexivity.
Qed.

Lemma obeys_get_default_snapshot (P : t -> Prop) :
  obeys snapshot_call P get_default_snapshot snapshot_cached.
Proof.
  eapply obeys_ext; [|apply obeys_default_snapshot_by_symbols].
  intros m. symmetry. apply get_default_snapshot_by_symbols.
Qed.

End Methods.

(** ** Fast frames *)

Section FastFrames.
Context `{API}.
Import LucamCamera.

(** The outcome of [disable_fast_frames], by the library's answer. *)
Lemma disable_fast_frames_cases m :
  let h := _handle (self m) in
  let '(ok, w) := LucamDisableFastFrames h (lib m) in
  disable_fast_frames m =
    if ok
    then (Ok tt, {| self := set_fast_frames_enabled false (self m); lib := w;
                    calls := (calls m ++ [DisableFastFrames h true])%list |})
    else let '(code, w') := LucamGetLastErrorForCamera h w in
         (Raise (LucamErr code),
          {| self := self m; lib := w';
             calls := ((calls m ++ [DisableFastFrames h false])
                       ++ [GetLastErrorForCamera h code])%list |}).
Proof.
  cbn zeta. unfold disable_fast_frames. unfold_session.
  destruct (LucamDisableFastFrames (_handle (self m)) (lib m)) as [[|] w];
    cbn; [reflexivity|].
  destruct (LucamGetLastErrorForCamera (_handle (self m)) w) as [code w'].
  reflexivity.
Qed.

(** The outcome of [enable_fast_frames] once the snapshot to use is
    known and marshalled. *)
Lemma enable_fast_frames_cases (snapshot : option Snapshot.t)
    (used : Snapshot.t) (lucam_snapshot : LUCAM_SNAPSHOT FLOAT) m :
  match snapshot with
  | Some given => given
  | None => default used (LucamCamera.snapshot (self m))
  end = used ->
  (snapshot = None -> is_Some (LucamCamera.snapshot (self m))) ->
  Snapshot.as_lucam used = Ok lucam_snapshot ->
  let h := _handle (self m) in
  let '(ok, w) := LucamEnableFastFrames h lucam_snapshot (lib m) in
  enable_fast_frames snapshot m =
    if ok
    then (Ok tt, {| self := set_fast_frames_enabled true (self m); lib := w;
                    calls := (calls m
                              ++ [EnableFastFrames h lucam_snapshot true])%list |})
    else let '(code, w') := LucamGetLastErrorForCamera h w in
         (Raise (LucamErr code),
          {| self := self m; lib := w';
             calls := ((calls m ++ [EnableFastFrames h lucam_snapshot false])
                       ++ [GetLastErrorForCamera h code])%list |}).
Proof.
  intros Hused Hcached Hmarshal. cbn zeta.
  unfold enable_fast_frames.
  assert (Hsnap :
    (match snapshot with
     | Some given => ret given
     | None => self_snapshot
     end) m = (Ok used, m)).
  { destruct snapshot as [given|]; [subst; reflexivity|].
    unfold self_snapshot, attr. destruct (Hcached eq_refl) as [cached Hc].
    rewrite Hc in *. cbn in Hused. subst. reflexivity. }
  unfold bind at 1. rewrite Hsnap.
  unfold_session. rewrite Hmarshal.
  destruct (LucamEnableFastFrames (_handle (self m)) lucam_snapshot (lib m))
    as [[|] w]; cbn; [reflexivity|].
  destruct (LucamGetLastErrorForCamera (_handle (self m)) w) as [code w'].
  reflexivity.
Qed.

(** Without a snapshot to use, or with one that cannot be marshalled,
    [enable_fast_frames] raises before any call and changes nothing. *)
Lemma enable_fast_frames_early (snapshot : option Snapshot.t) m :
  match snapshot with
  | Some given => is_ok (Snapshot.as_lucam given) = false
  | None =>
      match LucamCamera.snapshot (self m) with
      | Some cached => is_ok (Snapshot.as_lucam cached) = false
      | None => True
      end
  end ->
  is_ok (fst (enable_fast_frames snapshot m)) = false /\
  snd (enable_fast_frames snapshot m) = m.
Proof.
  intros Hearly. unfold enable_fast_frames, self_snapshot. unfold_session.
  destruct snapshot as [given|].
  - destruct (Snapshot.as_lucam given); [discriminate|]. split; reflexivity.
  - destruct (LucamCamera.snapshot (self m)) as [cached|].
    + destruct (Snapshot.as_lucam cached); [discriminate|]. split; reflexivity.
    + split; reflexivity.
Qed.

(** Every way [enable_fast_frames] can go. *)
Lemma enable_fast_frames_outcomes (snapshot : option Snapshot.t) m :
  (is_ok (fst (enable_fast_frames snapshot m)) = false /\
   snd (enable_fast_frames snapshot m) = m /\
   forall given, snapshot = Some given ->
                 is_ok (Snapshot.as_lucam given) = false) \/
  (exists used lucam_snapshot,
     Snapshot.as_lucam used = Ok lucam_snapshot /\
     (snapshot = Some used \/
      (snapshot = None /\ LucamCamera.snapshot (self m) = Some used)) /\
     let h := _handle (self m) in
     let '(ok, w) := LucamEnableFastFrames h lucam_snapshot (lib m) in
     enable_fast_frames snapshot m =
       if ok
       then (Ok tt, {| self := set_fast_frames_enabled true (self m); lib := w;
                       calls := (calls m
                                 ++ [EnableFastFrames h lucam_snapshot true])%list |})
       else let '(code, w') := LucamGetLastErrorForCamera h w in
            (Raise (LucamErr code),
             {| self := self m; lib := w';
                calls := ((calls m ++ [EnableFastFrames h lucam_snapshot false])
                          ++ [GetLastErrorForCamera h code])%list |})).
Proof.
  destruct snapshot as [given|].
  - destruct (Snapshot.as_lucam given) as [c|e] eqn:Hm.
    + right. exists given, c. split; [assumption|]. split; [auto|].
      apply (enable_fast_frames_cases (Some given) given c m); auto.
      discriminate.
    + left.
      destruct (enable_fast_frames_early (Some given) m) as [H1 H2];
        [by rewrite Hm|].
      split; [exact H1|]. split; [exact H2|].
      intros ? [= <-]. by rewrite Hm.
  - destruct (LucamCamera.snapshot (self m)) as [cached|] eqn:Hc.
    + destruct (Snapshot.as_lucam cached) as [c|e] eqn:Hm.
      * right. exists cached, c. split; [assumption|]. split; [auto|].
        apply (enable_fast_frames_cases None cached c m);
          rewrite ?Hc; eauto.
      * left.
        destruct (enable_fast_frames_early None m) as [H1 H2];
          [by rewrite Hc, Hm|].
        split; [exact H1|]. split; [exact H2|discriminate].
    + left.
      destruct (enable_fast_frames_early None m) as [H1 H2];
        [by rewrite Hc|].
      split; [exact H1|]. split; [exact H2|discriminate].
Qed.

End FastFrames.

(** C5: whatever the flag was before the call, after
    [enable_fast_frames] it is true if the call returned and unchanged
    if the call raised; after [disable_fast_frames] it is false if the
    call returned and unchanged if it raised.  [disable_fast_frames]
    returns exactly when the library answers [TRUE], and so does
    [enable_fast_frames] once the snapshot to use, given or cached, has
    been marshalled. *)
Theorem fast_frames_flag `{API} (snapshot : option Snapshot.t)
    (m : LucamCamera.machine) :
  let enabled := LucamCamera.enable_fast_frames snapshot m in
  let disabled := LucamCamera.disable_fast_frames m in
  let h := LucamCamera._handle (LucamCamera.self m) in
  LucamCamera.fast_frames_enabled (LucamCamera.self (snd enabled))
  = (if is_ok (fst enabled) then true
     else LucamCamera.fast_frames_enabled (LucamCamera.self m)) /\
  LucamCamera.fast_frames_enabled (LucamCamera.self (snd disabled))
  = (if is_ok (fst disabled) then false
     else LucamCamera.fast_frames_enabled (LucamCamera.self m)) /\
  is_ok (fst disabled) = fst (LucamDisableFastFrames h (LucamCamera.lib m)) /\
  (forall used lucam_snapshot,
     match snapshot with
     | Some given => Some given
     | None => LucamCamera.snapshot (LucamCamera.self m)
     end = Some used ->
     Snapshot.as_lucam used = Ok lucam_snapshot ->
     is_ok (fst enabled)
     = fst (LucamEnableFastFrames h lucam_snapshot (LucamCamera.lib m))).
Proof.
  cbn zeta. split; [|split; [|split]].
  - destruct (enable_fast_frames_outcomes snapshot m)
      as [(Hraise & Hsame & _)|(used & c & _ & _ & Hrun)].
    + rewrite Hraise, Hsame. reflexivity.
    + cbn zeta in Hrun.
      destruct (LucamEnableFastFrames _ c _) as [[|] w]; rewrite Hrun;
        [reflexivity|].
      destruct (LucamGetLastErrorForCamera _ w) as [code w']. reflexivity.
  - pose proof (disable_fast_frames_cases m) as Hrun. cbn zeta in Hrun.
    destruct (LucamDisableFastFrames _ _) as [[|] w]; rewrite Hrun;
      [reflexivity|].
    destruct (LucamGetLastErrorForCamera _ w) as [code w']. reflexivity.
  - pose proof (disable_fast_frames_cases m) as Hrun. cbn zeta in Hrun.
    destruct (LucamDisableFastFrames _ _) as [[|] w]; rewrite Hrun;
      [reflexivity|].
    destruct (LucamGetLastErrorForCamera _ w) as [code w']. reflexivity.
  - intros used c Hused Hmarshal.
    pose proof (enable_fast_frames_cases snapshot used c m) as Hrun.
    cbn zeta in Hrun.
    assert (Hgo := fun H1 H2 => Hrun H1 H2 Hmarshal). clear Hrun.
    assert (H1 : match snapshot with
                 | Some given => given
                 | None => default used (LucamCamera.snapshot (LucamCamera.self m))
                 end = used).
    { destruct snapshot as [given|]; [congruence|]. by rewrite Hused. }
    assert (H2 : snapshot = None ->
                 is_Some (LucamCamera.snapshot (LucamCamera.self m))).
    { intros ->. eauto. }
    specialize (Hgo H1 H2).
    destruct (LucamEnableFastFrames (LucamCamera._handle (LucamCamera.self m))
                c (LucamCamera.lib m)) as [[|] w]; rewrite Hgo;
      [reflexivity|].
    destruct (LucamGetLastErrorForCamera _ w) as [code w']. reflexivity.
Qed.

Lemma fast_frames_flag_witness :
  is_ok (fst (LucamCamera.enable_fast_frames (Some Simulated.a_snapshot)
                (Simulated.small_session false []))) = true.
Proof.
  eapply (proj2 (proj2 (proj2
            (fast_frames_flag (Some Simulated.a_snapshot)
               (Simulated.small_session false []))))
            Simulated.a_snapshot _ eq_refl).
  vm_compute. reflexivity.
Defined.

(** C10: [enable_fast_frames] leaves the cached snapshot, format,
    framerate, width and height (and the handle) as they were, whether
    it returns or raises; a snapshot passed explicitly is marshalled
    and handed to [LucamEnableFastFrames], which is the only call made
    besides the error query after a refusal. *)
Theorem enable_fast_frames_keeps_caches `{API} (snapshot : option Snapshot.t)
    (m : LucamCamera.machine) :
  let m' := snd (LucamCamera.enable_fast_frames snapshot m) in
  let h := LucamCamera._handle (LucamCamera.self m) in
  (LucamCamera.snapshot (LucamCamera.self m')
     = LucamCamera.snapshot (LucamCamera.self m) /\
   LucamCamera.format (LucamCamera.self m')
     = LucamCamera.format (LucamCamera.self m) /\
   LucamCamera.framerate (LucamCamera.self m')
     = LucamCamera.framerate (LucamCamera.self m) /\
   LucamCamera.width (LucamCamera.self m')
     = LucamCamera.width (LucamCamera.self m) /\
   LucamCamera.height (LucamCamera.self m')
     = LucamCamera.height (LucamCamera.self m) /\
   LucamCamera._handle (LucamCamera.self m') = h) /\
  match snapshot with
  | None => True
  | Some given =>
      LucamCamera.calls m' =
      (LucamCamera.calls m ++
       match Snapshot.as_lucam given with
       | Raise _ => []
       | Ok lucam_snapshot =>
           let '(ok, w) :=
             LucamEnableFastFrames h lucam_snapshot (LucamCamera.lib m) in
           EnableFastFrames h lucam_snapshot ok ::
           (if ok then []
            else [GetLastErrorForCamera h
                    (fst (LucamGetLastErrorForCamera h w))])
       end)%list
  end.
Proof.
  cbn zeta.
  destruct (enable_fast_frames_outcomes snapshot m)
    as [(Hraise & Hsame & Hbad)|(used & c & Hmarshal & Hused & Hrun)].
  - rewrite Hsame. split; [auto 10|].
    destruct snapshot as [given|]; [|exact I].
    specialize (Hbad given eq_refl).
    destruct (Snapshot.as_lucam given); [discriminate|].
    symmetry. apply app_nil_r.
  - cbn zeta in Hrun.
    assert (Hgiven : forall given, snapshot = Some given -> given = used).
    { intros given ->. destruct Hused as [[= ->]|[[=] _]]. reflexivity. }
    destruct (LucamEnableFastFrames (LucamCamera._handle (LucamCamera.self m))
                c (LucamCamera.lib m)) as [[|] w] eqn:Hcall; rewrite Hrun.
    + split; [cbn; auto 10|].
      destruct snapshot as [given|]; [|exact I].
      rewrite (Hgiven given eq_refl), Hmarshal, Hcall. reflexivity.
    + destruct (LucamGetLastErrorForCamera _ w) as [code w'] eqn:Herr.
      split; [cbn; auto 10|].
      destruct snapshot as [given|]; [|exact I].
      rewrite (Hgiven given eq_refl), Hmarshal, Hcall, Herr. cbn.
      rewrite <- app_assoc. reflexivity.
Qed.

Example enable_fast_frames_refused :
  let api := Simulated.api 1 ["LucamEnableFastFrames"] in
  let '(_, m) := LucamCamera.__init__ (H := api) 1 0 in
  let '(r, m') := LucamCamera.enable_fast_frames (H := api) None m in
  r = Raise (LucamErr 5) /\
  LucamCamera.fast_frames_enabled (LucamCamera.self m') = false.
Proof. vm_compute. split; reflexivity. Qed.

Example enable_fast_frames_accepted :
  let api := Simulated.api 1 [] in
  let '(_, m) := LucamCamera.__init__ (H := api) 1 0 in
  let '(r, m') := LucamCamera.enable_fast_frames (H := api) None m in
  r = Ok tt /\
  LucamCamera.fast_frames_enabled (LucamCamera.self m') = true.
Proof. vm_compute. split; reflexivity. Qed.

Example disable_fast_frames_refused :
  let '(r, m') :=
    LucamCamera.disable_fast_frames
      (Simulated.small_session true ["LucamDisableFastFrames"]) in
  r = Raise (LucamErr 5) /\
  LucamCamera.fast_frames_enabled (LucamCamera.self m') = true.
Proof. vm_compute. split; reflexivity. Qed.

Example disable_fast_frames_accepted :
  let '(r, m') :=
    LucamCamera.disable_fast_frames (Simulated.small_session true []) in
  r = Ok tt /\
  LucamCamera.fast_frames_enabled (LucamCamera.self m') = false.
Proof. vm_compute. split; reflexivity. Qed.

(** ** Taking a frame *)

(** C8: when [take_fast_frame] returns, the array has the shape
    (cached height, cached width), the element type [uint8] and
    C-contiguous (row-major) layout; with cached dimensions that numpy
    accepts, it returns such an array holding what the library wrote if
    the library answers [TRUE], and raises [LucamError] if it answers
    [FALSE]. *)
Theorem take_fast_frame_buffer `{API} (m : LucamCamera.machine) :
  let r := fst (LucamCamera.take_fast_frame m) in
  let h := LucamCamera._handle (LucamCamera.self m) in
  (forall frame, r = Ok frame ->
     exists rows columns,
       LucamCamera.height (LucamCamera.self m) = Some rows /\
       LucamCamera.width (LucamCamera.self m) = Some columns /\
       np.shape frame = [rows; columns] /\
       np.dtype frame = np.uint8 /\
       np.c_contiguous frame = true) /\
  (forall rows columns,
     LucamCamera.height (LucamCamera.self m) = Some rows ->
     LucamCamera.width (LucamCamera.self m) = Some columns ->
     (0 <= rows)%Z -> (0 <= columns)%Z ->
     let answer :=
       fst (LucamTakeFastFrame h (uninitialised (rows * columns))
              (LucamCamera.lib m)) in
     if fst answer
     then r = Ok {| np.shape := [rows; columns]; np.dtype := np.uint8;
                    np.c_contiguous := true; np.data := snd answer |}
     else exists code, r = Raise (LucamErr code)).
Proof.
  cbn zeta. unfold LucamCamera.take_fast_frame, LucamCamera.self_height,
    LucamCamera.self_width, np.ndarray2, np.ascontiguousarray,
    LucamCamera.with_data.
  unfold_session.
  destruct (LucamCamera.height (LucamCamera.self m)) as [rows|];
    [|split; [discriminate|intros; discriminate]].
  destruct (LucamCamera.width (LucamCamera.self m)) as [columns|];
    [|split; [discriminate|intros; discriminate]].
  destruct ((rows <? 0) || (columns <? 0))%Z eqn:Hneg; cbn [fst snd np.data].
  - split; [discriminate|]. intros ? ? [= <-] [= <-] Hr Hc.
    apply orb_true_iff in Hneg as [Hn|Hn]; apply Z.ltb_lt in Hn; lia.
  - destruct (LucamTakeFastFrame (LucamCamera._handle (LucamCamera.self m))
                (uninitialised (rows * columns)) (LucamCamera.lib m))
      as [[ok bytes] w] eqn:Hcall. cbn [fst snd].
    destruct ok; cbn [fst snd LucamCamera.self LucamCamera.lib].
    + split.
      * intros frame Hframe. injection Hframe as Hframe. subst frame.
        exists rows. exists columns. cbn. auto.
      * intros ? ? [= <-] [= <-] _ _. rewrite Hcall. reflexivity.
    + destruct (LucamGetLastErrorForCamera
                  (LucamCamera._handle (LucamCamera.self m)) w) as [code w'].
      cbn [fst snd]. split; [discriminate|].
      intros ? ? [= <-] [= <-] _ _. rewrite Hcall. cbn [fst snd]. eauto.
Qed.

Lemma take_fast_frame_buffer_witness :
  fst (LucamCamera.take_fast_frame (Simulated.small_session false []))
  = Ok {| np.shape := [3; 2]%Z; np.dtype := np.uint8; np.c_contiguous := true;
          np.data := [7; 7; 7; 7; 7; 7]%Z |} /\
  exists code,
    fst (LucamCamera.take_fast_frame
           (Simulated.small_session false ["LucamTakeFastFrame"]))
    = Raise (LucamErr code).
Proof.
  split.
  - apply (proj2 (take_fast_frame_buffer (Simulated.small_session false []))
             3%Z 2%Z eq_refl eq_refl); lia.
  - apply (proj2 (take_fast_frame_buffer
                    (Simulated.small_session false ["LucamTakeFastFrame"]))
             3%Z 2%Z eq_refl eq_refl); lia.
Defined.

Example take_fast_frame_negative :
  fst (LucamCamera.take_fast_frame
         (@LucamCamera.Build_machine (Simulated.api 1 [])
            (LucamCamera.set_height (-1)
               (LucamCamera.self (Simulated.small_session false [])))
            0%Z []))
  = Raise (ValueError "negative dimensions are not allowed").
Proof. reflexivity. Qed.

(** ** The default snapshot *)

Section DefaultSnapshot.
Context `{API}.
Import LucamCamera.

(** A property query that returns has looked the constant up and
    received the value from [LucamGetProperty]. *)
Lemma query_symbol_ok (symbol : string) m (value : pynum pyfloat) :
  fst (query_symbol symbol m) = Ok value ->
  exists p x,
    lib_constant symbol = Some p /\
    value = PyFloat (py_of_FLOAT x) /\
    self (snd (query_symbol symbol m)) = self m /\
    calls (snd (query_symbol symbol m))
    = (calls m ++ [Getattr symbol (Some p);
                   GetProperty (_handle (self m)) p (Some x)])%list.
Proof.
  unfold query_symbol, lib_getattr. unfold_session.
  destruct (lib_constant symbol) as [p|]; [|discriminate].
  cbn [self lib calls].
  destruct (LucamGetProperty (_handle (self m)) p (lib m)) as [[x|] w].
  - cbn. intros [= <-]. exists p, x. repeat split.
    rewrite <- app_assoc. reflexivity.
  - cbn [self lib calls].
    destruct (LucamGetLastErrorForCamera (_handle (self m)) w) as [code w'].
    discriminate.
Qed.

(** A format query that returns has stored what [LucamGetFormat]
    wrote. *)
Lemma get_format_ok m (f : Format.t) :
  fst (get_format m) = Ok f ->
  exists frame rate,
    Format.from_lucam frame = Ok f /\
    self (snd (get_format m))
    = set_height (Format.height f)
        (set_width (Format.width f)
           (set_framerate (PyFloat (py_of_FLOAT rate))
              (set_format f (self m)))) /\
    calls (snd (get_format m))
    = (calls m ++ [GetFormat (_handle (self m)) (Some (frame, rate))])%list.
Proof.
  unfold get_format. unfold_session.
  destruct (LucamGetFormat (_handle (self m)) (lib m)) as [[[frame rate]|] w].
  - rewrite from_lucam_members. cbn. intros [= <-].
    exists frame, rate. rewrite from_lucam_members. repeat split.
  - cbn [self lib calls].
    destruct (LucamGetLastErrorForCamera (_handle (self m)) w) as [code w'].
    discriminate.
Qed.

(** What a returning [get_default_snapshot] has asked and stored. *)
Lemma default_snapshot_by_symbols_ok m (snapshot : Snapshot.t) :
  fst (default_snapshot_by_symbols m) = Ok snapshot ->
  let h := _handle (self m) in
  let m' := snd (default_snapshot_by_symbols m) in
  exists p1 x1 p2 x2 p3 x3 p4 x4 p5 x5 p6 x6 frame rate,
    calls m' =
    (calls m ++
     [Getattr "LUCAM_PROP_EXPOSURE" (Some p1); GetProperty h p1 (Some x1);
      Getattr "LUCAM_PROP_GAIN" (Some p2); GetProperty h p2 (Some x2);
      Getattr "LUCAM_PROP_GAIN_RED" (Some p3); GetProperty h p3 (Some x3);
      Getattr "LUCAM_PROP_GAIN_BLUE" (Some p4); GetProperty h p4 (Some x4);
      Getattr "LUCAM_PROP_GAIN_GREEN1" (Some p5); GetProperty h p5 (Some x5);
      Getattr "LUCAM_PROP_GAIN_GREEN2" (Some p6); GetProperty h p6 (Some x6);
      GetFormat h (Some (frame, rate))])%list /\
    Format.from_lucam frame = Ok (Snapshot.format snapshot) /\
    snapshot =
      {| Snapshot.exposure := PyFloat (py_of_FLOAT x1);
         Snapshot.gain := PyFloat (py_of_FLOAT x2);
         Snapshot.gainRed := PyFloat (py_of_FLOAT x3);
         Snapshot.gainBlue := PyFloat (py_of_FLOAT x4);
         Snapshot.gainGrn1 := PyFloat (py_of_FLOAT x5);
         Snapshot.gainGrn2 := PyFloat (py_of_FLOAT x6);
         Snapshot.timeout := PyInt 100;
         Snapshot.format := Snapshot.format snapshot |} /\
    LucamCamera.snapshot (self m') = Some snapshot /\
    format (self m') = Some (Snapshot.format snapshot).
Proof.
  cbn zeta. unfold default_snapshot_by_symbols. intros Hok.
  apply bind_ok in Hok as Hq1. destruct Hq1 as (v1 & Hq1 & E1).
  rewrite E1 in Hok |- *. clear E1.
  apply query_symbol_ok in Hq1 as (p1 & x1 & _ & -> & Hs1 & Hc1).
  set (m1 := snd (query_symbol "LUCAM_PROP_EXPOSURE" m)) in *.
  apply bind_ok in Hok as Hq2. destruct Hq2 as (v2 & Hq2 & E2).
  rewrite E2 in Hok |- *. clear E2.
  apply query_symbol_ok in Hq2 as (p2 & x2 & _ & -> & Hs2 & Hc2).
  set (m2 := snd (query_symbol "LUCAM_PROP_GAIN" m1)) in *.
  apply bind_ok in Hok as Hq3. destruct Hq3 as (v3 & Hq3 & E3).
  rewrite E3 in Hok |- *. clear E3.
  apply query_symbol_ok in Hq3 as (p3 & x3 & _ & -> & Hs3 & Hc3).
  set (m3 := snd (query_symbol "LUCAM_PROP_GAIN_RED" m2)) in *.
  apply bind_ok in Hok as Hq4. destruct Hq4 as (v4 & Hq4 & E4).
  rewrite E4 in Hok |- *. clear E4.
  apply query_symbol_ok in Hq4 as (p4 & x4 & _ & -> & Hs4 & Hc4).
  set (m4 := snd (query_symbol "LUCAM_PROP_GAIN_BLUE" m3)) in *.
  apply bind_ok in Hok as Hq5. destruct Hq5 as (v5 & Hq5 & E5).
  rewrite E5 in Hok |- *. clear E5.
  apply query_symbol_ok in Hq5 as (p5 & x5 & _ & -> & Hs5 & Hc5).
  set (m5 := snd (query_symbol "LUCAM_PROP_GAIN_GREEN1" m4)) in *.
  apply bind_ok in Hok as Hq6. destruct Hq6 as (v6 & Hq6 & E6).
  rewrite E6 in Hok |- *. clear E6.
  apply query_symbol_ok in Hq6 as (p6 & x6 & _ & -> & Hs6 & Hc6).
  set (m6 := snd (query_symbol "LUCAM_PROP_GAIN_GREEN2" m5)) in *.
  apply bind_ok in Hok as Hq7. destruct Hq7 as (f & Hq7 & E7).
  rewrite E7 in Hok |- *. clear E7.
  apply get_format_ok in Hq7 as (frame & rate & Hfrom & Hs7 & Hc7).
  set (m7 := snd (get_format m6)) in *.
  cbn in Hok. injection Hok as <-.
  exists p1, x1, p2, x2, p3, x3, p4, x4, p5, x5, p6, x6, frame, rate.
  cbn [snd fst bind assign ret self calls snapshot format set_snapshot
       Snapshot.format].
  repeat split; try assumption.
  - rewrite Hc7, Hc6, Hc5, Hc4, Hc3, Hc2, Hc1, Hs6, Hs5, Hs4, Hs3, Hs2, Hs1.
    rewrite <- !app_assoc. reflexivity.
  - rewrite Hs7. reflexivity.
Qed.

End DefaultSnapshot.

(** C2: [get_default_snapshot] is the sequence of six property queries
    under the constants [LUCAM_PROP_EXPOSURE], [LUCAM_PROP_GAIN],
    [LUCAM_PROP_GAIN_RED], [LUCAM_PROP_GAIN_BLUE],
    [LUCAM_PROP_GAIN_GREEN1] and [LUCAM_PROP_GAIN_GREEN2], followed by a
    format query.  It looks up no other constant (so never
    [LUCAM_PROP_GAIN_GRN1]); it raises whenever a lookup or a query is
    refused; and when it returns, it has made the six queries and then
    the format query, the snapshot holds the six answers, 100 as
    timeout and the format just read, and it is the snapshot now
    cached. *)
Theorem get_default_snapshot_queries `{API} (m : LucamCamera.machine) :
  let r := fst (LucamCamera.get_default_snapshot m) in
  let m' := snd (LucamCamera.get_default_snapshot m) in
  let h := LucamCamera._handle (LucamCamera.self m) in
  LucamCamera.get_default_snapshot m = LucamCamera.default_snapshot_by_symbols m /\
  exists evs,
    LucamCamera.calls m' = (LucamCamera.calls m ++ evs)%list /\
    Forall LucamCamera.snapshot_call evs /\
    (forall ret, ~ In (Getattr "LUCAM_PROP_GAIN_GRN1" ret) evs) /\
    (existsb LucamCamera.refused evs = true -> is_ok r = false) /\
    (forall snapshot, r = Ok snapshot ->
       exists p1 x1 p2 x2 p3 x3 p4 x4 p5 x5 p6 x6 frame rate,
         evs =
         [Getattr "LUCAM_PROP_EXPOSURE" (Some p1); GetProperty h p1 (Some x1);
          Getattr "LUCAM_PROP_GAIN" (Some p2); GetProperty h p2 (Some x2);
          Getattr "LUCAM_PROP_GAIN_RED" (Some p3); GetProperty h p3 (Some x3);
          Getattr "LUCAM_PROP_GAIN_BLUE" (Some p4); GetProperty h p4 (Some x4);
          Getattr "LUCAM_PROP_GAIN_GREEN1" (Some p5); GetProperty h p5 (Some x5);
          Getattr "LUCAM_PROP_GAIN_GREEN2" (Some p6); GetProperty h p6 (Some x6);
          GetFormat h (Some (frame, rate))] /\
         Format.from_lucam frame = Ok (Snapshot.format snapshot) /\
         snapshot =
           {| Snapshot.exposure := PyFloat (py_of_FLOAT x1);
              Snapshot.gain := PyFloat (py_of_FLOAT x2);
              Snapshot.gainRed := PyFloat (py_of_FLOAT x3);
              Snapshot.gainBlue := PyFloat (py_of_FLOAT x4);
              Snapshot.gainGrn1 := PyFloat (py_of_FLOAT x5);
              Snapshot.gainGrn2 := PyFloat (py_of_FLOAT x6);
              Snapshot.timeout := PyInt 100;
              Snapshot.format := Snapshot.format snapshot |} /\
         LucamCamera.snapshot (LucamCamera.self m') = Some snapshot /\
         LucamCamera.format (LucamCamera.self m')
         = Some (Snapshot.format snapshot)).
Proof.
  cbn zeta. split; [apply get_default_snapshot_by_symbols|].
  destruct (obeys_get_default_snapshot (fun _ => True) m)
    as (evs & Hcalls & Hall & Hstrict & _).
  exists evs. split; [exact Hcalls|]. split; [exact Hall|].
  split; [|split; [exact Hstrict|]].
  - intros ret Hin. rewrite Forall_forall in Hall.
    apply list_elem_of_In in Hin. specialize (Hall _ Hin). cbn in Hall.
    intuition discriminate.
  - intros snapshot Hok.
    rewrite get_default_snapshot_by_symbols in Hok, Hcalls |- *.
    destruct (default_snapshot_by_symbols_ok m snapshot Hok)
      as (p1 & x1 & p2 & x2 & p3 & x3 & p4 & x4 & p5 & x5 & p6 & x6
          & frame & rate & Hc & Hrest).
    exists p1, x1, p2, x2, p3, x3, p4, x4, p5, x5, p6, x6, frame, rate.
    split; [|exact Hrest].
    rewrite Hc in Hcalls. apply app_inv_head in Hcalls. symmetry. exact Hcalls.
Qed.

Lemma get_default_snapshot_queries_witness :
  ~ In (Getattr "LUCAM_PROP_GAIN_GRN1" None)
       (LucamCamera.calls
          (snd (LucamCamera.get_default_snapshot
                  (Simulated.small_session false [])))).
Proof.
  destruct (get_default_snapshot_queries (Simulated.small_session false []))
    as (_ & evs & Hcalls & _ & Hnever & _).
  rewrite Hcalls. exact (Hnever None).
Defined.

Example get_default_snapshot_green :
  let '(r, m') :=
    LucamCamera.get_default_snapshot (Simulated.small_session false []) in
  (Snapshot.gainGrn1 <$> (match r with Ok s => Some s | Raise _ => None end))
  = Some (PyFloat 42%Z) /\
  In (Getattr "LUCAM_PROP_GAIN_GREEN1" (Some 42%Z)) (LucamCamera.calls m').
Proof. vm_compute. split; [reflexivity|tauto]. Qed.

Example get_default_snapshot_refused :
  fst (LucamCamera.get_default_snapshot
         (Simulated.small_session false ["LucamGetProperty"]))
  = Raise (LucamErr 5).
Proof. vm_compute. reflexivity. Qed.

(** ** White balance and opening *)

Section WhiteBalance.
Context `{API}.
Import LucamCamera.

Lemma obeys_ret_bind {A B} T P (a : A) (k : A -> M B) Q :
  obeys T P (k a) Q -> obeys T P (bind (ret a) k) Q.
Proof. apply obeys_ext. reflexivity. Qed.


(** A checked call: [ok <- CALL ;; check ok ;; k]. *)
Lemma obeys_checked_call {B} (T : event pyfloat FLOAT -> Prop) (P : t -> Prop)
    (f : W -> bool * W) (ev : bool -> event pyfloat FLOAT) (k : M B) Q :
  (forall r, T (ev r)) ->
  (forall r, refused (ev r) = negb r) ->
  (forall handle code, T (GetLastErrorForCamera handle code)) ->
  obeys T P k Q ->
  obeys T P (bind (call f ev) (fun ok => bind (check ok) (fun _ => k))) Q.
Proof.
  intros HT Hev Herr Hk. apply obeys_call_bind; [exact HT| |].
  - intros r Hr. rewrite Hev in Hr. destruct r; [discriminate|].
    apply fails_bind. apply fails_raise_LucamError, Herr.
  - intros r Hr. rewrite Hev in Hr. destruct r; [|discriminate].
    apply obeys_ret_bind. exact Hk.
Qed.


Lemma obeys_enable_fast_frames_cached (T : event pyfloat FLOAT -> Prop) :
  (forall handle c r, T (EnableFastFrames handle c r)) ->
  (forall handle code, T (GetLastErrorForCamera handle code)) ->
  obeys T (fun s => exists cached, snapshot_cached cached s)
    (enable_fast_frames None)
    (fun _ s => fast_frames_enabled s = true).
Proof.
  intros HT Herr. unfold enable_fast_frames, self_snapshot.
  eapply obeys_bind; [apply obeys_attr|].
  { intros s (cached & Hc & _). rewrite Hc. eauto. }
  intros used.
  eapply obeys_bind; [apply obeys_get_handle|]. intros handle.
  eapply obeys_bind; [apply obeys_lift|].
  { intros s [[(cached & Hc & _ & _ & Hok) Hused] _]. congruence. }
  intros c.
  apply obeys_checked_call; [exact (HT handle c)|reflexivity|exact Herr|].
  eapply obeys_post; [|apply obeys_assign].
  cbn. intros _ s (s0 & _ & ->). reflexivity.
Qed.

Lemma obeys_refresh_and_enable (start_x start_y width height : Z)
    (P : t -> Prop) :
  obeys (white_balance_call start_x start_y width height) P
    refresh_and_enable (fun _ s => fast_frames_enabled s = true).
Proof.
  unfold refresh_and_enable.
  eapply obeys_bind; [apply obeys_get_handle|]. intros h.
  eapply obeys_bind; [apply obeys_lib_getattr; cbn; tauto|]. intros stop.
  apply obeys_checked_call; try (intros; exact I); [reflexivity|].
  eapply obeys_bind.
  { eapply obeys_calls; [|eapply obeys_post;
                             [|apply obeys_get_default_snapshot]].
    - intros [] He; cbn in *; tauto.
    - cbn. intros a s Ha. exact (ex_intro (fun c => snapshot_cached c s) a Ha). }
  intros ?.
  apply obeys_enable_fast_frames_cached; intros; exact I.
Qed.

Lemma obeys_stream_and_balance (start_x start_y width height : Z)
    (P : t -> Prop) :
  obeys (white_balance_call start_x start_y width height) P
    (stream_and_balance start_x start_y width height)
    (fun _ s => fast_frames_enabled s = true).
Proof.
  unfold stream_and_balance.
  eapply obeys_bind; [apply obeys_get_handle|]. intros h.
  eapply obeys_bind; [apply obeys_lib_getattr; cbn; tauto|]. intros start.
  apply obeys_checked_call; try (intros; exact I); [reflexivity|].
  eapply obeys_bind; [apply obeys_get_handle|]. intros h'.
  apply obeys_checked_call; try (intros; exact I);
    [intros; cbn; auto|reflexivity|].
  apply obeys_refresh_and_enable.
Qed.

(** [white_balance] once its region is known. *)
Lemma white_balance_phases (start_x start_y width height : Z) m :
  white_balance start_x start_y (Some width) (Some height) m
  = bind (fun m => (if fast_frames_enabled (self m)
                    then disable_fast_frames else ret tt) m)
         (fun _ => stream_and_balance start_x start_y width height) m.
Proof. reflexivity. Qed.

(** The default region is the cached width and height. *)
Lemma white_balance_defaults (start_x start_y : Z)
    (width height : option Z) (w h : Z) m :
  match width with Some given => Some given | None => LucamCamera.width (self m) end
    = Some w ->
  match height with Some given => Some given | None => LucamCamera.height (self m) end
    = Some h ->
  white_balance start_x start_y width height m
  = white_balance start_x start_y (Some w) (Some h) m.
Proof.
  intros Hw Hh. unfold white_balance.
  rewrite (bind_head_at _ (ret w)).
  2:{ destruct width as [given|]; [congruence|].
      unfold self_width, attr. rewrite Hw. reflexivity. }
  rewrite bind_ret.
  rewrite (bind_head_at _ (ret h)).
  2:{ destruct height as [given|]; [congruence|].
      unfold self_height, attr. rewrite Hh. reflexivity. }
  reflexivity.
Qed.



End WhiteBalance.

Section WhiteBalanceTrace.
Context `{API}.
Import LucamCamera.



End WhiteBalanceTrace.





(** ** Opening a session *)

Section Opening.
Context `{API}.
Import LucamCamera.


(** If the library refuses the format query on the handle it
    answered, opening raises [LucamError]. *)
Lemma init_format_refused (number : Z) (w : W) :
  let '(handle, w') := LucamCameraOpen number w in
  fst (LucamGetFormat handle w') = None ->
  exists code, fst (__init__ number w) = Raise (LucamErr code).
Proof.
  unfold __init__. destruct (LucamCameraOpen number w) as [handle w'].
  intros Hrefused. unfold get_format. unfold_session.
  cbn [self lib calls _handle fresh].
  destruct (LucamGetFormat handle w') as [[r|] w1]; [discriminate|].
  cbn [self lib calls _handle fresh].
  destruct (LucamGetLastErrorForCamera handle w1) as [code w2].
  exists code. reflexivity.
Qed.

End Opening.


Example init_caches :
  let run := LucamCamera.__init__ (H := Simulated.api 1 []) 1 0 in
  fst run = Ok tt /\
  LucamCamera._handle (LucamCamera.self (snd run)) = 1%Z /\
  LucamCamera.width (LucamCamera.self (snd run)) = Some 640%Z /\
  LucamCamera.height (LucamCamera.self (snd run)) = Some 480%Z /\
  (Snapshot.timeout <$> LucamCamera.snapshot (LucamCamera.self (snd run)))
  = Some (PyInt 100).
Proof. vm_compute. repeat split. Qed.

Example init_format_refused_simulated :
  fst (LucamCamera.__init__ (H := Simulated.api 1 ["LucamGetFormat"]) 0 0)
  = Raise (LucamErr 5).
Proof. vm_compute. reflexivity. Qed.

(** * Further properties *)

(** ** The symbol a property name resolves to *)

Section SymbolShape.
Import PyStr.

Lemma upper_char_idempotent (c : ascii) : upper_char (upper_char c) = upper_char c.
Proof. destruct c as [[] [] [] [] [] [] [] []]; reflexivity. Qed.


Lemma underscore_upper_char (c : ascii) :
  Ascii.eqb "_" (upper_char c) = Ascii.eqb "_" c.
Proof. destruct c as [[] [] [] [] [] [] [] []]; reflexivity. Qed.

Lemma upper_idempotent (s : string) : upper (upper s) = upper s.
Proof.
  induction s as [|c s IH]; cbn [upper]; [reflexivity|].
  rewrite upper_char_idempotent, IH. reflexivity.
Qed.

Lemma contains_underscore_upper (s : string) :
  contains "_" (upper s) = contains "_" s.
Proof.
  induction s as [|c s IH]; [reflexivity|].
  cbn [upper contains starts_with]. rewrite underscore_upper_char, IH.
  reflexivity.
Qed.









End SymbolShape.


(** X2: a name written with underscores is resolved without regard
    to the case of its letters: its upper-case form is looked up
    under the same symbol. *)
Theorem property_name_case `{API} (s : string) (m : LucamCamera.machine) :
  PyStr.contains "_" s = true ->
  LucamCamera._property_value (ByStr (PyStr.upper s)) m
  = LucamCamera._property_value (ByStr s) m.
Proof.
  intros Hs. unfold LucamCamera._property_value, property_symbol.
  rewrite contains_underscore_upper, Hs. cbn [negb].
  rewrite upper_idempotent. reflexivity.
Qed.

Lemma property_name_case_witness :
  LucamCamera._property_value (ByStr "GAIN_RED") (Simulated.small_session false [])
  = LucamCamera._property_value (ByStr "gain_red") (Simulated.small_session false []).
Proof.
  apply (property_name_case (H := Simulated.api 1 []) "gain_red"
           (Simulated.small_session false [])).
  reflexivity.
Defined.

(** Without an underscore the case of the letters matters: every
    capital letter opens a word. *)
Example property_symbol_capitals_only :
  property_symbol "GAIN" = "LUCAM_PROP_G_A_I_N" /\
  property_symbol "gain" = "LUCAM_PROP_GAIN".
Proof. split; reflexivity. Qed.



(** ** The texts handed to [ffi.cdef] *)

Section HeaderText.
Import PyStr.

Lemma scan_none (lines : list string) (i : nat) (start : option nat) :
  Header.scan i lines start = None <->
  start = None /\
  Forall (fun line => contains "Function Definitions" line = false) lines.
Proof.
  revert i start. induction lines as [|line lines IH]; intros i start.
  - cbn [Header.scan]. split; [intros ->; split; [reflexivity|constructor]|].
    intros [-> _]. reflexivity.
  - cbn [Header.scan]. rewrite IH, Forall_cons.
    destruct (contains "Function Definitions" line).
    + split; [intros [[=] _]|intros [_ [[=] _]]].
    + tauto.
Qed.

Lemma scan_unmarked (lines : list string) (i : nat) (start : option nat) :
  Forall (fun line => contains "Function Definitions" line = false) lines ->
  Header.scan i lines start = start.
Proof.
  revert i start. induction lines as [|line lines IH]; intros i start Hlines;
    [reflexivity|].
  apply Forall_cons in Hlines as [Hline Hlines].
  cbn [Header.scan]. rewrite Hline. apply IH, Hlines.
Qed.

Lemma scan_last (before after : list string) (line : string) (i : nat)
    (start : option nat) :
  contains "Function Definitions" line = true ->
  Forall (fun line => contains "Function Definitions" line = false) after ->
  Header.scan i (before ++ line :: after) start = Some (i + length before)%nat.
Proof.
  intros Hline Hafter. revert i start.
  induction before as [|x before IH]; intros i start.
  - cbn [app Header.scan]. rewrite Hline, scan_unmarked by exact Hafter.
    rewrite Nat.add_0_r. reflexivity.
  - cbn [app Header.scan length]. rewrite IH. f_equal. lia.
Qed.

Lemma replace_go_skip (old new : string) (k : nat) (s : string) :
  replace_go old new k s = replace_go old new 0 (Header.slice_from k s).
Proof.
  revert s. induction k as [|k IH]; intros [|c s]; try reflexivity.
  cbn [replace_go Header.slice_from]. apply IH.
Qed.

Lemma length_slice_from (k : nat) (s : string) :
  (String.length (Header.slice_from k s) <= String.length s)%nat.
Proof.
  revert s. induction k as [|k IH]; intros [|c s]; cbn [Header.slice_from];
    try lia.
  cbn [String.length]. specialize (IH s). lia.
Qed.

(** A text that begins the replaced line begins the line, as long
    as none of its underscores meets the two that open
    [__stdcall]. *)
Lemma starts_with_replaced (q : string) :
  Header.apart q = true ->
  forall s,
    starts_with q (replace "LUCAM_EXPORT" "__stdcall" s) = true ->
    starts_with q s = true.
Proof.
  unfold replace.
  induction q as [|a q IH]; intros Hq s Hs; [reflexivity|].
  destruct s as [|c s]; [discriminate Hs|].
  cbn [replace_go] in Hs. cbn [Header.apart] in Hq.
  apply andb_prop in Hq as [Ha Hq].
  destruct (starts_with "LUCAM_EXPORT" (String c s)).
  - exfalso. cbv [append] in Hs. cbn [starts_with] in Hs.
    destruct (Ascii.eqb a "_"); [|discriminate Hs].
    destruct q as [|b q]; [discriminate Ha|].
    cbn [starts_with] in Hs.
    destruct (Ascii.eqb b "_"); [discriminate Ha|discriminate Hs].
  - cbn [starts_with] in Hs |- *.
    apply andb_prop in Hs as [-> Hs]. apply (IH Hq s Hs).
Qed.

Lemma replace_export_gone (s : string) :
  contains "LUCAM_EXPORT" (replace "LUCAM_EXPORT" "__stdcall" s) = false.
Proof.
  remember (String.length s) as n eqn:Hn.
  assert (Hle : (String.length s <= n)%nat) by lia. clear Hn.
  revert s Hle. induction n as [|n IH]; intros [|c s] Hle; try reflexivity;
    cbn [String.length] in Hle; [lia|].
  pose proof (starts_with_replaced "LUCAM_EXPORT" eq_refl (String c s)) as Hhead.
  unfold replace in *. cbn [replace_go] in Hhead |- *.
  destruct (starts_with "LUCAM_EXPORT" (String c s)) eqn:Hm.
  - rewrite replace_go_skip. cbv [append].
    cbn [contains starts_with Ascii.eqb Bool.eqb andb orb].
    apply IH. pose proof (length_slice_from (String.length "LUCAM_EXPORT" - 1) s).
    lia.
  - cbn [contains]. rewrite (IH s) by lia. rewrite orb_false_r.
    destruct (starts_with "LUCAM_EXPORT"
                (String c (replace_go "LUCAM_EXPORT" "__stdcall" 0 s)));
      [|reflexivity].
    symmetry. apply Hhead. reflexivity.
Qed.

End HeaderText.

(** X20: without a line containing [Function Definitions] the local
    [function_start] is never assigned and [load_header] raises
    [UnboundLocalError] before anything reaches [ffi.cdef]; with such
    a line it gets to its calls of [ffi.cdef]. *)
Theorem load_header_unbound (lines : list string) :
  Header.load_header lines = Header.UnboundLocalError "function_start" <->
  Forall (fun line => PyStr.contains "Function Definitions" line = false) lines.
Proof.
  unfold Header.load_header, Header.function_start.
  destruct (Header.scan 0 lines None) as [i|] eqn:Hscan.
  - split; [discriminate|]. intros Hlines.
    rewrite scan_unmarked in Hscan by exact Hlines. discriminate.
  - split; [|reflexivity]. intros _. apply scan_none in Hscan as [_ Hlines].
    exact Hlines.
Qed.

(** X21: the header is cut at the last line containing
    [Function Definitions]: the lines before it, earlier marker lines
    among them, reach [ffi.cdef] as one text joined by newlines, and
    that line and each later one reach it separately, as
    declarations. *)
Theorem load_header_last_marker (before after : list string) (line : string) :
  PyStr.contains "Function Definitions" line = true ->
  Forall (fun line => PyStr.contains "Function Definitions" line = false) after ->
  Header.load_header (before ++ line :: after)
  = Header.Cdef (PyStr.join Header.newline before
                   :: map Header.declaration (line :: after)).
Proof.
  intros Hline Hafter. unfold Header.load_header, Header.function_start.
  rewrite (scan_last before after line 0 None Hline Hafter).
  cbn [Nat.add]. rewrite take_app_length, drop_app_length. reflexivity.
Qed.

Lemma load_header_last_marker_witness :
  Header.load_header
    ["typedef int BOOL;"; "// Function Definitions follow"; "typedef int LONG;";
     "// Function Definitions"; "LUCAM_API BOOL LUCAM_EXPORT LucamCameraClose(HANDLE hCamera);"]
  = Header.Cdef
      [PyStr.join Header.newline
         ["typedef int BOOL;"; "// Function Definitions follow"; "typedef int LONG;"];
       "// Function Definitions"; "BOOL __stdcall LucamCameraClose(HANDLE hCamera);"].
Proof.
  apply (load_header_last_marker
           ["typedef int BOOL;"; "// Function Definitions follow"; "typedef int LONG;"]
           ["LUCAM_API BOOL LUCAM_EXPORT LucamCameraClose(HANDLE hCamera);"]
           "// Function Definitions").
  - reflexivity.
  - repeat constructor.
Defined.

(** X22: no declaration made from a line that mentions [LUCAM_API]
    still contains [LUCAM_EXPORT]; any other line reaches [ffi.cdef]
    as it is, so it contains [LUCAM_EXPORT] exactly when the line
    does. *)
Theorem declaration_export (line : string) :
  PyStr.contains "LUCAM_EXPORT" (Header.declaration line)
  = PyStr.contains "LUCAM_EXPORT" line && negb (PyStr.contains "LUCAM_API" line).
Proof.
  unfold Header.declaration.
  destruct (PyStr.contains "LUCAM_API" line); cbn [negb].
  - rewrite replace_export_gone, andb_false_r. reflexivity.
  - rewrite andb_true_r. reflexivity.
Qed.

(** The ten characters dropped are the length of ["LUCAM_API "]: a
    prototype written after that prefix keeps all of its text, and a
    line that has [LUCAM_API] further to the right loses its first
    ten characters all the same. *)
Example declaration_prototype :
  Header.declaration "LUCAM_API BOOL LUCAM_EXPORT LucamCameraClose(HANDLE hCamera);"
  = "BOOL __stdcall LucamCameraClose(HANDLE hCamera);" /\
  Header.declaration "extern LUCAM_API BOOL LUCAM_EXPORT LucamCameraClose(HANDLE hCamera);"
  = "AM_API BOOL __stdcall LucamCameraClose(HANDLE hCamera);".
Proof. split; reflexivity. Qed.

(** ** Marshalling, beyond the round trip *)

Section MarshallingOrder.
Context `{API}.

Lemma result_for_app {A X} (body : A -> X -> result A) (l1 l2 : list X) (acc : A) :
  result_for body (l1 ++ l2) acc
  = result_bind (result_for body l1 acc) (result_for body l2).
Proof.
  revert acc. induction l1 as [|x l1 IH]; intros acc; [reflexivity|].
  cbn [app result_for]. destruct (body acc x); [apply IH|reflexivity].
Qed.

Lemma getattr_annotations (f : Format.t) :
  Forall (fun attr => Format.getattr f attr = Ok (Format.value f attr))
         Format.__annotations__.
Proof. repeat (apply Forall_cons; split; [reflexivity|]). constructor. Qed.

(** Reading a member of a struct in which every member was stored
    with a value that fits it. *)
Lemma getattr_stored (g : string -> Z) (attr : string) :
  NoDup (map (fun attr => slot (frame_member attr)) Format.__annotations__) ->
  attr ∈ Format.__annotations__ ->
  fits (frame_member attr) (g attr) = true ->
  c_getattr (stored g Format.__annotations__ ffi_new) attr = g attr.
Proof.
  intros Hsep Hin Hfits. unfold c_getattr.
  rewrite stored_member by assumption. cbn [default].
  apply c_read_fits, Hfits.
Qed.

End MarshallingOrder.

(** X16: [as_lucam] stores the fields in the order they are declared
    and stops at the first value its member cannot hold: the
    [OverflowError] is the one of that member, whatever the later
    fields hold. *)
Theorem as_lucam_first_overflow `{API} (f : Format.t)
    (fitting later : list string) (attr : string) :
  Format.__annotations__ = (fitting ++ attr :: later)%list ->
  Forall (fun a => fits (frame_member a) (Format.value f a) = true) fitting ->
  fits (frame_member attr) (Format.value f attr) = false ->
  Format.as_lucam f = Raise (OverflowError attr).
Proof.
  intros Hsplit Hfitting Hattr.
  pose proof (getattr_annotations f) as Hget. rewrite Hsplit in Hget.
  apply Forall_app in Hget as [Hget_fitting Hget_attr].
  apply Forall_cons in Hget_attr as [Hget_attr _].
  unfold Format.as_lucam. rewrite Hsplit, result_for_app.
  rewrite setattr_loop.
  - cbn [result_bind result_for]. rewrite Hget_attr. cbn [result_bind].
    unfold c_setattr. rewrite Hattr. reflexivity.
  - rewrite Forall_forall in Hget_fitting, Hfitting |- *.
    intros a Ha. exists (Format.value f a).
    split; [apply Hget_fitting, Ha|apply Hfitting, Ha].
Qed.

Lemma as_lucam_first_overflow_witness :
  Format.as_lucam (H := Simulated.api 1 [])
    {| Format.xOffset := 0; Format.yOffset := 0; Format.width := 2 ^ 32;
       Format.height := 480; Format.pixelFormat := 0; Format.subSampleX := 1;
       Format.binningX := 1; Format.flagsX := 0; Format.subSampleY := 1;
       Format.binningY := 2 ^ 16; Format.flagsY := -1 |}
  = Raise (OverflowError "width").
Proof.
  apply (as_lucam_first_overflow (H := Simulated.api 1 []) _
           ["xOffset"; "yOffset"]
           ["height"; "pixelFormat"; "subSampleX"; "binningX"; "flagsX";
            "subSampleY"; "binningY"; "flagsY"] "width").
  - reflexivity.
  - repeat constructor.
  - reflexivity.
Defined.

(** X17: a format read from a struct of the library can always be
    marshalled again, and when no two members share storage the new
    struct shows the same members and reads as the same format: what
    [get_format] returns survives the round trip whatever the library
    wrote. *)
Theorem from_lucam_stable `{API} (c : cdata) (f : Format.t) :
  NoDup (map (fun attr => slot (frame_member attr)) Format.__annotations__) ->
  Format.from_lucam c = Ok f ->
  exists c',
    Format.as_lucam f = Ok c' /\
    (forall attr, attr ∈ Format.__annotations__ ->
                  c_getattr c' attr = c_getattr c attr) /\
    Format.from_lucam c' = Ok f.
Proof.
  intros Hsep Hread. rewrite from_lucam_members in Hread.
  injection Hread as Hf.
  assert (Hvalue : forall attr, attr ∈ Format.__annotations__ ->
            Format.value f attr = c_getattr c attr).
  { intros attr Hin. subst f. apply list_elem_of_In in Hin. cbn in Hin.
    repeat (destruct Hin as [<-|Hin]; [reflexivity|]). destruct Hin. }
  exists (stored (Format.value f) Format.__annotations__ ffi_new).
  assert (Hshown : forall attr, attr ∈ Format.__annotations__ ->
            c_getattr (stored (Format.value f) Format.__annotations__ ffi_new) attr
            = c_getattr c attr).
  { intros attr Hin. rewrite getattr_stored; [apply Hvalue, Hin|assumption..|].
    rewrite (Hvalue _ Hin). apply fits_c_read. }
  split; [|split; [exact Hshown|]].
  - unfold Format.as_lucam. apply setattr_loop.
    pose proof (getattr_annotations f) as Hget.
    rewrite Forall_forall in Hget |- *. intros attr Hin.
    exists (Format.value f attr). split; [apply Hget, Hin|].
    rewrite (Hvalue _ Hin). apply fits_c_read.
  - rewrite from_lucam_members.
    rewrite !Hshown by (apply list_elem_of_In; cbn; tauto).
    f_equal. exact Hf.
Qed.

Lemma from_lucam_stable_witness :
  exists c',
    Format.as_lucam (H := Simulated.api 1 []) Simulated.a_format = Ok c' /\
    Format.from_lucam (H := Simulated.api 1 []) c' = Ok Simulated.a_format.
Proof.
  destruct (from_lucam_stable (H := Simulated.api 1 []) Simulated.frame
              Simulated.a_format) as (c' & Hc' & _ & Hf).
  - refine (bool_decide_unpack _ _). vm_compute. exact I.
  - reflexivity.
  - exists c'. split; assumption.
Defined.


(** X23: [Snapshot.from_lucam] does not undo [Snapshot.as_lucam].
    Read back from the struct [as_lucam] made, every number field is
    the float the struct holds for it, the integer timeout included,
    and the [format] attribute is the embedded struct, the very one
    [Format.as_lucam] produced, not a [Format]: converting it is left
    to the caller. *)
Theorem Snapshot_from_lucam_as_lucam `{API} (snapshot : Snapshot.t)
    (c : LUCAM_SNAPSHOT FLOAT) :
  Snapshot.as_lucam snapshot = Ok c ->
  Format.as_lucam (Snapshot.format snapshot) = Ok (snapshot_format c) /\
  forall attr,
    SnapshotFromLucam.from_lucam c !! attr
    = match Snapshot.__dict__ snapshot !! attr with
      | Some (Num n) => Some (FloatValue (py_of_FLOAT (FLOAT_of_py n)))
      | Some (Fmt _) => Some (StructValue (snapshot_format c))
      | None => None
      end.
Proof.
  rewrite Snapshot_as_lucam_format.
  destruct (Format.as_lucam (Snapshot.format snapshot)) as [frame|e];
    cbn [result_bind]; [|discriminate].
  intros [= <-]. cbn [snapshot_format]. split; [reflexivity|].
  intros attr. unfold SnapshotFromLucam.from_lucam, Snapshot.__annotations__.
  cbn [foldl]. unfold Snapshot.__dict__.
  rewrite !list_to_map_cons, list_to_map_nil.
  destruct (decide (attr = "format")) as [->|?]; [vm_compute; reflexivity|].
  destruct (decide (attr = "timeout")) as [->|?]; [vm_compute; reflexivity|].
  destruct (decide (attr = "gainGrn2")) as [->|?]; [vm_compute; reflexivity|].
  destruct (decide (attr = "gainGrn1")) as [->|?]; [vm_compute; reflexivity|].
  destruct (decide (attr = "gainBlue")) as [->|?]; [vm_compute; reflexivity|].
  destruct (decide (attr = "gainRed")) as [->|?]; [vm_compute; reflexivity|].
  destruct (decide (attr = "gain")) as [->|?]; [vm_compute; reflexivity|].
  destruct (decide (attr = "exposure")) as [->|?]; [vm_compute; reflexivity|].
  rewrite !lookup_insert_ne, !lookup_empty by congruence. reflexivity.
Qed.

Lemma Snapshot_from_lucam_as_lucam_witness :
  exists c,
    Snapshot.as_lucam Simulated.a_snapshot = Ok c /\
    SnapshotFromLucam.from_lucam (H := Simulated.api 1 []) c !! "timeout"
    = Some (FloatValue 100%Z) /\
    SnapshotFromLucam.from_lucam (H := Simulated.api 1 []) c !! "format"
    = Some (StructValue (snapshot_format c)).
Proof.
  destruct (Snapshot.as_lucam Simulated.a_snapshot) as [c|e] eqn:Hc;
    [|vm_compute in Hc; discriminate].
  exists c. split; [reflexivity|].
  destruct (Snapshot_from_lucam_as_lucam (H := Simulated.api 1 [])
              Simulated.a_snapshot c Hc) as [_ Hread].
  split; [exact (Hread "timeout")|exact (Hread "format")].
Defined.

(** ** What the methods assign *)

Section EffectRules.
Context `{API}.
Import LucamCamera.

Lemma unchanged_ret {A} (a : A) : unchanged (ret a).
Proof. intros m. reflexivity. Qed.

Lemma unchanged_raise {A} (e : exn) : unchanged (@raise _ A e).
Proof. intros m. reflexivity. Qed.

Lemma unchanged_lift {A} (r : result A) : unchanged (lift r).
Proof. intros m. reflexivity. Qed.

Lemma unchanged_attr {A} (name : string) (field : t -> option A) :
  unchanged (attr name field).
Proof. intros m. unfold attr. destruct (field (self m)); reflexivity. Qed.

Lemma unchanged_get_handle : unchanged get_handle.
Proof. intros m. reflexivity. Qed.

Lemma unchanged_call {A} (f : W -> A * W) (ev : A -> event pyfloat FLOAT) :
  unchanged (call f ev).
Proof. intros m. unfold call. destruct (f (lib m)). reflexivity. Qed.

Lemma unchanged_lib_getattr (name : string) : unchanged (lib_getattr name).
Proof. intros m. unfold lib_getattr. destruct (lib_constant name); reflexivity. Qed.

Lemma unchanged_bind {A B} (c : M A) (k : A -> M B) :
  unchanged c -> (forall a, unchanged (k a)) -> unchanged (bind c k).
Proof.
  intros Hc Hk m. unfold bind. specialize (Hc m).
  destruct (c m) as [[a|e] m1]; cbn [snd] in Hc |- *; [|exact Hc].
  rewrite Hk. exact Hc.
Qed.

Lemma unchanged_ext {A} (c c' : M A) :
  (forall m, c m = c' m) -> unchanged c -> unchanged c'.
Proof. intros Heq Hc m. rewrite <- Heq. apply Hc. Qed.

Lemma changes_ext {A} (Rok : A -> t -> t -> Prop) (Rerr : t -> t -> Prop)
    (c c' : M A) :
  (forall m, c m = c' m) -> changes Rok Rerr c -> changes Rok Rerr c'.
Proof. intros Heq Hc m. rewrite <- Heq. apply Hc. Qed.

Lemma changes_conseq {A} (Rok Rok' : A -> t -> t -> Prop)
    (Rerr Rerr' : t -> t -> Prop) (c : M A) :
  (forall a s s', Rok a s s' -> Rok' a s s') ->
  (forall s s', Rerr s s' -> Rerr' s s') ->
  changes Rok Rerr c -> changes Rok' Rerr' c.
Proof.
  intros Hok Herr Hc m. specialize (Hc m).
  destruct (fst (c m)); [apply Hok|apply Herr]; exact Hc.
Qed.

Lemma changes_unchanged {A} (Rok : A -> t -> t -> Prop) (Rerr : t -> t -> Prop)
    (c : M A) :
  unchanged c -> (forall a s, Rok a s s) -> (forall s, Rerr s s) ->
  changes Rok Rerr c.
Proof.
  intros Hc Hok Herr m. rewrite Hc. destruct (fst (c m)); [apply Hok|apply Herr].
Qed.

Lemma changes_assign (f : t -> t) :
  changes (fun _ s s' => s' = f s) (fun _ _ => False) (assign f).
Proof. intros m. reflexivity. Qed.

Lemma changes_bind {A B} (c : M A) (k : A -> M B)
    (Rok1 : A -> t -> t -> Prop) (Rerr1 : t -> t -> Prop)
    (Rok2 : A -> B -> t -> t -> Prop) (Rerr2 : A -> t -> t -> Prop)
    (Rok : B -> t -> t -> Prop) (Rerr : t -> t -> Prop) :
  changes Rok1 Rerr1 c ->
  (forall a, changes (Rok2 a) (Rerr2 a) (k a)) ->
  (forall a b s1 s2 s3, Rok1 a s1 s2 -> Rok2 a b s2 s3 -> Rok b s1 s3) ->
  (forall s1 s2, Rerr1 s1 s2 -> Rerr s1 s2) ->
  (forall a s1 s2 s3, Rok1 a s1 s2 -> Rerr2 a s2 s3 -> Rerr s1 s3) ->
  changes Rok Rerr (bind c k).
Proof.
  intros Hc Hk Hokok Herr Hokerr m. unfold bind. specialize (Hc m).
  destruct (c m) as [[a|e] m1]; cbn [fst snd] in Hc |- *; [|apply Herr, Hc].
  specialize (Hk a m1).
  destruct (fst (k a m1)); [eapply Hokok|eapply Hokerr]; eassumption.
Qed.

(** After a program that assigns nothing. *)
Lemma changes_after_unchanged {A B} (c : M A) (k : A -> M B)
    (Rok : B -> t -> t -> Prop) (Rerr : t -> t -> Prop) :
  unchanged c -> (forall s, Rerr s s) ->
  (forall a, changes Rok Rerr (k a)) ->
  changes Rok Rerr (bind c k).
Proof.
  intros Hc Herr Hk m. unfold bind. specialize (Hc m).
  destruct (c m) as [[a|e] m1]; cbn [fst snd] in Hc |- *.
  - specialize (Hk a m1). rewrite Hc in Hk. exact Hk.
  - rewrite Hc. apply Herr.
Qed.

(** Under one relation that composes. *)
Lemma changes_then {A B} (c : M A) (k : A -> M B) (R : t -> t -> Prop) :
  (forall s1 s2 s3, R s1 s2 -> R s2 s3 -> R s1 s3) ->
  changes (fun _ => R) R c -> (forall a, changes (fun _ => R) R (k a)) ->
  changes (fun _ => R) R (bind c k).
Proof.
  intros Htrans Hc Hk.
  apply (changes_bind c k (fun _ => R) R (fun _ _ => R) (fun _ => R));
    [exact Hc|exact Hk|..]; intros; eauto.
Qed.

Lemma unchanged_get_last_error : unchanged get_last_error.
Proof.
  apply unchanged_bind; [apply unchanged_get_handle|].
  intros h. apply unchanged_call.
Qed.

Lemma unchanged_raise_LucamError {A} : unchanged (@raise_LucamError _ A).
Proof.
  apply unchanged_bind; [|intros e; apply unchanged_raise].
  apply unchanged_bind; [apply unchanged_get_last_error|].
  intros value. apply unchanged_ret.
Qed.

Lemma unchanged_check (ok : bool) : unchanged (check ok).
Proof.
  destruct ok; [apply unchanged_ret|apply unchanged_raise_LucamError].
Qed.

Lemma unchanged_property_value (property : property_id) :
  unchanged (_property_value property).
Proof.
  destruct property as [p|n|s]; cbn [_property_value].
  - destruct (LucamProperty.value p); [apply unchanged_ret|apply unchanged_raise].
  - apply unchanged_ret.
  - apply unchanged_lib_getattr.
Qed.

Lemma unchanged_get_property (property : property_id) :
  unchanged (get_property property).
Proof.
  apply unchanged_bind; [apply unchanged_get_handle|]. intros h.
  apply unchanged_bind; [apply unchanged_property_value|]. intros p.
  apply unchanged_bind; [apply unchanged_call|]. intros [value|].
  - apply unchanged_ret.
  - apply unchanged_raise_LucamError.
Qed.

Lemma unchanged_set_property (property : property_id) (value : pynum pyfloat) :
  unchanged (set_property property value).
Proof.
  apply unchanged_bind; [apply unchanged_get_handle|]. intros h.
  apply unchanged_bind; [apply unchanged_property_value|]. intros p.
  apply unchanged_bind; [apply unchanged_call|]. intros ok.
  apply unchanged_check.
Qed.

Lemma unchanged_query_symbol (symbol : string) : unchanged (query_symbol symbol).
Proof.
  apply unchanged_bind; [apply unchanged_get_handle|]. intros h.
  apply unchanged_bind; [apply unchanged_lib_getattr|]. intros p.
  apply unchanged_bind; [apply unchanged_call|]. intros [value|].
  - apply unchanged_ret.
  - apply unchanged_raise_LucamError.
Qed.

Lemma unchanged_take_fast_frame : unchanged take_fast_frame.
Proof.
  apply unchanged_bind; [apply unchanged_attr|]. intros rows.
  apply unchanged_bind; [apply unchanged_attr|]. intros columns.
  apply unchanged_bind; [apply unchanged_lift|]. intros frame.
  apply unchanged_bind; [apply unchanged_get_handle|]. intros h.
  apply unchanged_bind; [apply unchanged_call|]. intros r.
  apply unchanged_bind; [apply unchanged_check|]. intros _.
  apply unchanged_ret.
Qed.

(** [get_format] assigns the format, the framerate and the
    dimensions together, once the library has answered. *)
Lemma get_format_changes :
  changes (fun f s s' => exists c rate,
             Format.from_lucam c = Ok f /\ s' = with_format f rate s)
          (fun s s' => s' = s) get_format.
Proof.
  intros m. unfold get_format. unfold_session.
  destruct (LucamGetFormat (_handle (self m)) (lib m)) as [[[c rate]|] w];
    cbn [self lib calls fst snd].
  - rewrite from_lucam_members. cbn [fst snd self].
    exists c, rate. split; [apply from_lucam_members|reflexivity].
  - destruct (LucamGetLastErrorForCamera (_handle (self m)) w). reflexivity.
Qed.

(** [get_default_snapshot] assigns nothing before its last query,
    the one for the format, has been answered. *)
Lemma get_default_snapshot_changes :
  changes (fun cached s s' => exists c rate,
             Format.from_lucam c = Ok (Snapshot.format cached) /\
             Snapshot.timeout cached = PyInt 100 /\
             s' = set_snapshot cached (with_format (Snapshot.format cached) rate s))
          (fun s s' => s' = s) get_default_snapshot.
Proof.
  apply (changes_ext _ _ default_snapshot_by_symbols);
    [intros m; symmetry; apply get_default_snapshot_by_symbols|].
  unfold default_snapshot_by_symbols.
  do 6 (apply changes_after_unchanged;
        [apply unchanged_query_symbol|reflexivity|intros ?]).
  apply (changes_bind _ _
           (fun f s s' => exists c rate,
              Format.from_lucam c = Ok f /\ s' = with_format f rate s)
           (fun s s' => s' = s)
           (fun f cached s s' =>
              Snapshot.format cached = f /\ Snapshot.timeout cached = PyInt 100 /\
              s' = set_snapshot cached s)
           (fun _ _ _ => False)).
  - apply get_format_changes.
  - intros f m. cbn. repeat split.
  - intros f cached s1 s2 s3 (c & rate & Hc & ->) (<- & Htimeout & ->).
    exists c, rate. repeat split; assumption.
  - intros s1 s2 Hs. exact Hs.
  - intros f s1 s2 s3 _ [].
Qed.

Lemma enable_fast_frames_changes (snapshot : option Snapshot.t) :
  changes (fun _ s s' => s' = set_fast_frames_enabled true s)
          (fun s s' => s' = s) (enable_fast_frames snapshot).
Proof.
  unfold enable_fast_frames.
  apply changes_after_unchanged; [|reflexivity|intros used].
  { destruct snapshot; [apply unchanged_ret|apply unchanged_attr]. }
  apply changes_after_unchanged; [apply unchanged_get_handle|reflexivity|intros h].
  apply changes_after_unchanged; [apply unchanged_lift|reflexivity|intros c].
  apply changes_after_unchanged; [apply unchanged_call|reflexivity|intros ok].
  apply changes_after_unchanged; [apply unchanged_check|reflexivity|intros _].
  intros m. reflexivity.
Qed.

Lemma disable_fast_frames_changes :
  changes (fun _ s s' => s' = set_fast_frames_enabled false s)
          (fun s s' => s' = s) disable_fast_frames.
Proof.
  unfold disable_fast_frames.
  apply changes_after_unchanged; [apply unchanged_get_handle|reflexivity|intros h].
  apply changes_after_unchanged; [apply unchanged_call|reflexivity|intros ok].
  apply changes_after_unchanged; [apply unchanged_check|reflexivity|intros _].
  intros m. reflexivity.
Qed.

Lemma changes_branch {A} (Rok : A -> t -> t -> Prop) (Rerr : t -> t -> Prop)
    (test : t -> bool) (c1 c2 : M A) :
  changes Rok Rerr c1 -> changes Rok Rerr c2 ->
  changes Rok Rerr (fun m => (if test (self m) then c1 else c2) m).
Proof. intros H1 H2 m. destruct (test (self m)); [apply H1|apply H2]. Qed.

(** *** Every method assigns by updates only *)

Lemma updates_unchanged {A} (c : M A) :
  unchanged c -> changes (fun _ => rtc update) (rtc update) c.
Proof. intros Hc. apply changes_unchanged; [exact Hc|..]; intros; apply rtc_refl. Qed.

Lemma updates_then {A B} (c : M A) (k : A -> M B) :
  changes (fun _ => rtc update) (rtc update) c ->
  (forall a, changes (fun _ => rtc update) (rtc update) (k a)) ->
  changes (fun _ => rtc update) (rtc update) (bind c k).
Proof.
  apply changes_then. intros s1 s2 s3 H12 H23. exact (rtc_trans _ _ _ H12 H23).
Qed.

Lemma updates_after {A B} (c : M A) (k : A -> M B) :
  unchanged c ->
  (forall a, changes (fun _ => rtc update) (rtc update) (k a)) ->
  changes (fun _ => rtc update) (rtc update) (bind c k).
Proof.
  intros Hc Hk. apply changes_after_unchanged; [exact Hc| |exact Hk].
  intros s. apply rtc_refl.
Qed.

Lemma get_format_updates : changes (fun _ => rtc update) (rtc update) get_format.
Proof.
  eapply changes_conseq; [| |apply get_format_changes].
  - intros f s s' (c & rate & Hc & ->). apply rtc_once.
    exact (update_format c rate f s Hc).
  - intros s s' ->. apply rtc_refl.
Qed.

Lemma get_default_snapshot_updates :
  changes (fun _ => rtc update) (rtc update) get_default_snapshot.
Proof.
  eapply changes_conseq; [| |apply get_default_snapshot_changes].
  - intros cached s s' (c & rate & Hc & Htimeout & ->).
    eapply rtc_l; [exact (update_format c rate _ s Hc)|].
    apply rtc_once. apply update_snapshot; [reflexivity|exact Htimeout].
  - intros s s' ->. apply rtc_refl.
Qed.

Lemma enable_fast_frames_updates (snapshot : option Snapshot.t) :
  changes (fun _ => rtc update) (rtc update) (enable_fast_frames snapshot).
Proof.
  eapply changes_conseq; [| |apply enable_fast_frames_changes].
  - intros _ s s' ->. apply rtc_once, update_flag.
  - intros s s' ->. apply rtc_refl.
Qed.

Lemma disable_fast_frames_updates :
  changes (fun _ => rtc update) (rtc update) disable_fast_frames.
Proof.
  eapply changes_conseq; [| |apply disable_fast_frames_changes].
  - intros _ s s' ->. apply rtc_once, update_flag.
  - intros s s' ->. apply rtc_refl.
Qed.

Lemma white_balance_updates (start_x start_y : Z) (width height : option Z) :
  changes (fun _ => rtc update) (rtc update)
          (white_balance start_x start_y width height).
Proof.
  unfold white_balance.
  apply updates_after; [|intros w].
  { destruct width; [apply unchanged_ret|apply unchanged_attr]. }
  apply updates_after; [|intros h].
  { destruct height; [apply unchanged_ret|apply unchanged_attr]. }
  apply updates_then; [|intros _].
  { apply changes_branch; [apply disable_fast_frames_updates|].
    apply updates_unchanged, unchanged_ret. }
  apply updates_after; [apply unchanged_get_handle|intros handle].
  apply updates_after; [apply unchanged_lib_getattr|intros start].
  apply updates_after; [apply unchanged_call|intros ok].
  apply updates_after; [apply unchanged_check|intros _].
  apply updates_after; [apply unchanged_get_handle|intros handle'].
  apply updates_after; [apply unchanged_call|intros ok'].
  apply updates_after; [apply unchanged_check|intros _].
  apply updates_after; [apply unchanged_get_handle|intros handle''].
  apply updates_after; [apply unchanged_lib_getattr|intros stop].
  apply updates_after; [apply unchanged_call|intros ok''].
  apply updates_after; [apply unchanged_check|intros _].
  apply updates_then; [apply get_default_snapshot_updates|intros _].
  apply enable_fast_frames_updates.
Qed.

Lemma updates_dropped {A} (c : M A) :
  changes (fun _ => rtc update) (rtc update) c ->
  changes (fun _ => rtc update) (rtc update) (bind c (fun _ => ret tt)).
Proof.
  intros Hc. apply updates_then; [exact Hc|].
  intros a. apply updates_unchanged, unchanged_ret.
Qed.

Lemma invoke_updates (c : Caller.method) :
  changes (fun _ => rtc update) (rtc update) (Caller.invoke c).
Proof.
  destruct c; cbn [Caller.invoke].
  - apply updates_dropped, updates_unchanged, unchanged_get_last_error.
  - apply updates_dropped, updates_unchanged, unchanged_get_property.
  - apply updates_unchanged, unchanged_set_property.
  - apply updates_dropped, get_format_updates.
  - apply updates_dropped, get_default_snapshot_updates.
  - apply enable_fast_frames_updates.
  - apply disable_fast_frames_updates.
  - apply updates_dropped, updates_unchanged, unchanged_take_fast_frame.
  - apply white_balance_updates.
Qed.

Lemma after_updates (script : list Caller.method) (m : machine) :
  rtc update (self m) (self (Caller.after script m)).
Proof.
  revert m. induction script as [|c script IH]; intros m; [apply rtc_refl|].
  unfold Caller.after. cbn [foldl].
  eapply rtc_trans; [|apply IH].
  pose proof (invoke_updates c m) as Hc.
  destruct (fst (Caller.invoke c m)); exact Hc.
Qed.


(** *** What updates keep *)

Lemma update_handle (s s' : t) : rtc update s s' -> _handle s' = _handle s.
Proof.
  induction 1 as [|s1 s2 s3 Hstep _ IH]; [reflexivity|].
  rewrite IH. destruct Hstep; reflexivity.
Qed.

Lemma update_cached (s s' : t) :
  rtc update s s' ->
  (is_Some (format s) -> is_Some (format s')) /\
  (is_Some (snapshot s) -> is_Some (snapshot s')) /\
  (is_Some (width s) -> is_Some (width s')) /\
  (is_Some (height s) -> is_Some (height s')).
Proof.
  induction 1 as [|s1 s2 s3 Hstep _ IH]; [tauto|].
  destruct IH as (Hf & Hs & Hw & Hh).
  destruct Hstep; cbn in Hf, Hs, Hw, Hh; repeat split; eauto.
Qed.



End EffectRules.

(** ** Property access *)

Section PropertyAccess.
Context `{API}.
Import LucamCamera.


End PropertyAccess.





(** ** Refreshing the caches *)

(** X6: [get_format] makes one [LucamGetFormat] call.  On [TRUE] it
    assigns the format read from the struct, its width and height and
    the framerate, and leaves the cached snapshot, the flag and the
    handle alone; on [FALSE] it raises [LucamError] with the camera's
    error code and assigns nothing. *)
Theorem get_format_all_or_nothing `{API} (m : LucamCamera.machine) :
  let run := LucamCamera.get_format m in
  let h := LucamCamera._handle (LucamCamera.self m) in
  match fst run with
  | Ok f =>
      exists c rate,
        Format.from_lucam c = Ok f /\
        LucamCamera.self (snd run)
        = {| LucamCamera._handle := h;
             LucamCamera.format := Some f;
             LucamCamera.snapshot := LucamCamera.snapshot (LucamCamera.self m);
             LucamCamera.framerate := PyFloat (py_of_FLOAT rate);
             LucamCamera.fast_frames_enabled :=
               LucamCamera.fast_frames_enabled (LucamCamera.self m);
             LucamCamera.width := Some (Format.width f);
             LucamCamera.height := Some (Format.height f) |} /\
        LucamCamera.calls (snd run)
        = (LucamCamera.calls m ++ [GetFormat h (Some (c, rate))])%list
  | Raise e =>
      LucamCamera.self (snd run) = LucamCamera.self m /\
      exists code,
        e = LucamErr code /\
        LucamCamera.calls (snd run)
        = (LucamCamera.calls m
           ++ [GetFormat h None; GetLastErrorForCamera h code])%list
  end.
Proof.
  cbn zeta. unfold LucamCamera.get_format. unfold_session.
  destruct (LucamGetFormat (LucamCamera._handle (LucamCamera.self m))
              (LucamCamera.lib m)) as [[[c rate]|] w];
    cbn [LucamCamera.self LucamCamera.lib LucamCamera.calls fst snd].
  - rewrite from_lucam_members.
    cbn [fst snd LucamCamera.self LucamCamera.calls].
    exists c, rate. split; [apply from_lucam_members|]. split; reflexivity.
  - destruct (LucamGetLastErrorForCamera
                (LucamCamera._handle (LucamCamera.self m)) w) as [code w'].
    cbn [fst snd LucamCamera.self LucamCamera.calls].
    split; [reflexivity|]. exists code. split; [reflexivity|].
    rewrite <- app_assoc. reflexivity.
Qed.

(** X7: [get_default_snapshot] is all or nothing on the instance:
    when it raises, whichever query was refused, no attribute has been
    assigned; when it returns, the snapshot is cached together with
    its format, that format's dimensions and the framerate, and the
    handle and the flag are as before. *)
Theorem get_default_snapshot_all_or_nothing `{API} (m : LucamCamera.machine) :
  let run := LucamCamera.get_default_snapshot m in
  match fst run with
  | Ok cached =>
      exists rate,
        LucamCamera.self (snd run)
        = {| LucamCamera._handle := LucamCamera._handle (LucamCamera.self m);
             LucamCamera.format := Some (Snapshot.format cached);
             LucamCamera.snapshot := Some cached;
             LucamCamera.framerate := PyFloat (py_of_FLOAT rate);
             LucamCamera.fast_frames_enabled :=
               LucamCamera.fast_frames_enabled (LucamCamera.self m);
             LucamCamera.width := Some (Format.width (Snapshot.format cached));
             LucamCamera.height := Some (Format.height (Snapshot.format cached)) |}
  | Raise _ => LucamCamera.self (snd run) = LucamCamera.self m
  end.
Proof.
  cbn zeta. pose proof (get_default_snapshot_changes m) as Hrun.
  destruct (fst (LucamCamera.get_default_snapshot m)) as [cached|e];
    [|exact Hrun].
  destruct Hrun as (c & rate & _ & _ & ->). exists rate. reflexivity.
Qed.

(** ** Sessions in use *)

(** X8: whatever methods are called on a session, in whatever order
    and whether they return or raise, the handle stored by
    [__init__] is never assigned again, and a format, snapshot,
    width or height once cached is never unset. *)
Theorem session_handle_fixed `{API} (script : list Caller.method)
    (m : LucamCamera.machine) :
  let s := LucamCamera.self m in
  let s' := LucamCamera.self (Caller.after script m) in
  LucamCamera._handle s' = LucamCamera._handle s /\
  (is_Some (LucamCamera.format s) -> is_Some (LucamCamera.format s')) /\
  (is_Some (LucamCamera.snapshot s) -> is_Some (LucamCamera.snapshot s')) /\
  (is_Some (LucamCamera.width s) -> is_Some (LucamCamera.width s')) /\
  (is_Some (LucamCamera.height s) -> is_Some (LucamCamera.height s')).
Proof.
  cbn zeta. pose proof (after_updates script m) as Hrun.
  split; [exact (update_handle _ _ Hrun)|exact (update_cached _ _ Hrun)].
Qed.




(** X19: when [__init__] returns, the object is fully described by
    the answers it received: the handle is whatever [LucamCameraOpen]
    answered, fast frames are off, and the snapshot is cached with a
    timeout of 100, around the very format that is cached with its
    dimensions. *)
Theorem init_session `{API} (number : Z) (w : W) :
  fst (LucamCamera.__init__ number w) = Ok tt ->
  exists cached rate,
    LucamCamera.self (snd (LucamCamera.__init__ number w))
    = {| LucamCamera._handle := fst (LucamCameraOpen number w);
         LucamCamera.format := Some (Snapshot.format cached);
         LucamCamera.snapshot := Some cached;
         LucamCamera.framerate := PyFloat (py_of_FLOAT rate);
         LucamCamera.fast_frames_enabled := false;
         LucamCamera.width := Some (Format.width (Snapshot.format cached));
         LucamCamera.height := Some (Format.height (Snapshot.format cached)) |} /\
    Snapshot.timeout cached = PyInt 100 /\
    is_ok (Snapshot.as_lucam cached) = true.
Proof.
  unfold LucamCamera.__init__.
  destruct (LucamCameraOpen number w) as [handle w']. cbn [fst].
  match goal with
  | |- context [LucamCamera.bind LucamCamera.get_format ?k ?m0] =>
      assert (Hrun : changes
                (fun _ s s' => exists cached c rate f0 rate0,
                   Format.from_lucam c = Ok (Snapshot.format cached) /\
                   Snapshot.timeout cached = PyInt 100 /\
                   s' = LucamCamera.set_snapshot cached
                          (with_format (Snapshot.format cached) rate
                             (with_format f0 rate0 s)))
                (fun _ _ => True)
                (LucamCamera.bind LucamCamera.get_format k));
      [|specialize (Hrun m0)]
  end.
  { apply (changes_bind _ _
             (fun f0 s s' => exists rate0, s' = with_format f0 rate0 s)
             (fun _ _ => True)
             (fun f0 _ s s' => exists cached c rate,
                Format.from_lucam c = Ok (Snapshot.format cached) /\
                Snapshot.timeout cached = PyInt 100 /\
                s' = LucamCamera.set_snapshot cached
                       (with_format (Snapshot.format cached) rate s))
             (fun _ _ _ => True)).
    - eapply changes_conseq; [| |apply get_format_changes].
      + intros f0 s s' (c & rate0 & _ & ->). exists rate0. reflexivity.
      + intros; exact I.
    - intros f0.
      apply (changes_bind _ _
               (fun cached s s' => exists c rate,
                  Format.from_lucam c = Ok (Snapshot.format cached) /\
                  Snapshot.timeout cached = PyInt 100 /\
                  s' = LucamCamera.set_snapshot cached
                         (with_format (Snapshot.format cached) rate s))
               (fun _ _ => True)
               (fun cached _ s s' => s' = s)
               (fun _ _ _ => True)).
      + eapply changes_conseq; [| |apply get_default_snapshot_changes].
        * intros cached s s' Hs. exact Hs.
        * intros; exact I.
      + intros cached m. reflexivity.
      + intros cached [] s1 s2 s3 (c & rate & Hc & Ht & ->) ->.
        exists cached, c, rate. repeat split; assumption.
      + intros; exact I.
      + intros; exact I.
    - intros f0 [] s1 s2 s3 (rate0 & ->) (cached & c & rate & Hc & Ht & ->).
      exists cached, c, rate, f0, rate0. repeat split; assumption.
    - intros; exact I.
    - intros; exact I. }
  intros Hopened. rewrite Hopened in Hrun.
  destruct Hrun as (cached & c & rate & f0 & rate0 & Hc & Htimeout & ->).
  exists cached, rate. split; [reflexivity|]. split; [exact Htimeout|].
  exact (Snapshot_as_lucam_ok cached (as_lucam_from_lucam c _ Hc)).
Qed.

Lemma init_session_witness :
  exists cached rate,
    LucamCamera.self (snd (LucamCamera.__init__ (H := Simulated.api 1 []) 1 0))
    = @LucamCamera.Build_t (Simulated.api 1 [])
        1 (Some (Snapshot.format cached)) (Some cached) (PyFloat rate) false
        (Some (Format.width (Snapshot.format cached)))
        (Some (Format.height (Snapshot.format cached))).
Proof.
  destruct (init_session (H := Simulated.api 1 []) 1 0%Z)
    as (cached & rate & Hself & _); [vm_compute; reflexivity|].
  exists cached, rate. exact Hself.
Defined.

(** ** Where a [LucamError] comes from *)

Section Reports.
Context `{API}.
Import LucamCamera.






























End Reports.


Example LucamError_provenance_white_balance :
  let run :=
    Caller.invoke (Caller.Call_white_balance 0 0 None None)
      (Simulated.small_session true ["LucamOneShotAutoWhiteBalance"]) in
  fst run = Raise (LucamErr 5) /\
  LucamCamera.calls (snd run)
  = [DisableFastFrames 1 true; Getattr "START_STREAMING" (Some 1%Z);
     StreamVideoControl 1 1 true; OneShotAutoWhiteBalance 1 0 0 2 3 false;
     GetLastErrorForCamera 1 5].
Proof. vm_compute. split; reflexivity. Qed.

(** ** [white_balance] when a call is refused *)

Section Balance.
Context `{API}.
Import LucamCamera.

(** Once streaming is asked for, the flag is assigned by the
    closing [enable_fast_frames] only, and only if that returns. *)
Lemma stream_and_balance_flag (start_x start_y width height : Z) :
  changes (fun _ _ _ => True)
          (fun s s' => fast_frames_enabled s' = fast_frames_enabled s)
          (stream_and_balance start_x start_y width height).
Proof.
  unfold stream_and_balance, refresh_and_enable.
  apply changes_after_unchanged; [apply unchanged_get_handle|reflexivity|intros h1].
  apply changes_after_unchanged; [apply unchanged_lib_getattr|reflexivity|intros start].
  apply changes_after_unchanged; [apply unchanged_call|reflexivity|intros ok1].
  apply changes_after_unchanged; [apply unchanged_check|reflexivity|intros _].
  apply changes_after_unchanged; [apply unchanged_get_handle|reflexivity|intros h2].
  apply changes_after_unchanged; [apply unchanged_call|reflexivity|intros ok2].
  apply changes_after_unchanged; [apply unchanged_check|reflexivity|intros _].
  apply changes_after_unchanged; [apply unchanged_get_handle|reflexivity|intros h3].
  apply changes_after_unchanged; [apply unchanged_lib_getattr|reflexivity|intros stop].
  apply changes_after_unchanged; [apply unchanged_call|reflexivity|intros ok3].
  apply changes_after_unchanged; [apply unchanged_check|reflexivity|intros _].
  apply (changes_bind _ _
           (fun _ s s' => fast_frames_enabled s' = fast_frames_enabled s)
           (fun s s' => fast_frames_enabled s' = fast_frames_enabled s)
           (fun _ _ _ _ => True)
           (fun _ s s' => s' = s)).
  - eapply changes_conseq; [| |apply get_default_snapshot_changes].
    + intros cached s s' (c & rate & _ & _ & ->). reflexivity.
    + intros s s' ->. reflexivity.
  - intros cached. eapply changes_conseq; [| |apply enable_fast_frames_changes].
    + intros; exact I.
    + intros s s' Hs. exact Hs.
  - intros; exact I.
  - intros s1 s2 Hs. exact Hs.
  - intros cached s1 s2 s3 H12 ->. exact H12.
Qed.

(** [refresh_and_enable] runs after the white balance: it makes no
    [LucamOneShotAutoWhiteBalance] call. *)
Lemma refresh_and_enable_calls m :
  exists evs,
    calls (snd (refresh_and_enable m)) = (calls m ++ evs)%list /\
    Forall (fun e => match e with
                     | OneShotAutoWhiteBalance _ _ _ _ _ _ => False
                     | _ => True
                     end) evs.
Proof.
  assert (Hrun : obeys (fun e => match e with
                                 | OneShotAutoWhiteBalance _ _ _ _ _ _ => False
                                 | _ => True
                                 end)
                   (fun _ => True) refresh_and_enable (fun _ _ => True)).
  { unfold refresh_and_enable.
    eapply obeys_bind; [apply obeys_get_handle|]. intros h.
    eapply obeys_bind; [apply obeys_lib_getattr; exact I|]. intros stop.
    apply obeys_checked_call; try (intros; exact I); [reflexivity|].
    eapply obeys_bind.
    { eapply obeys_calls; [|eapply obeys_post;
                               [|apply obeys_get_default_snapshot]].
      - intros [] He; cbn in He |- *; tauto.
      - cbn. intros a s Ha. exact (ex_intro (fun c => snapshot_cached c s) a Ha). }
    intros ?. eapply obeys_post;
      [|apply obeys_enable_fast_frames_cached; intros; exact I].
    intros; exact I. }
  destruct (Hrun m) as (evs & Hcalls & Hall & _).
  exists evs. split; assumption.
Qed.

Lemma stream_and_balance_refused (start_x start_y width height : Z) m
    (evs : list (event pyfloat FLOAT)) (handle' x' y' w' h' : Z) :
  let run := stream_and_balance start_x start_y width height m in
  let h := _handle (self m) in
  calls (snd run) = (calls m ++ evs)%list ->
  In (OneShotAutoWhiteBalance handle' x' y' w' h' false) evs ->
  exists start code,
    evs = [Getattr "START_STREAMING" (Some start);
           StreamVideoControl h start true;
           OneShotAutoWhiteBalance h start_x start_y width height false;
           GetLastErrorForCamera h code] /\
    fst run = Raise (LucamErr code).
Proof.
  cbn zeta. unfold stream_and_balance. unfold_session. unfold lib_getattr.
  cbn [self lib calls].
  destruct (lib_constant "START_STREAMING") as [start|];
    cbn [self lib calls fst snd].
  2:{ intros Hcalls Hin. apply app_inv_head in Hcalls. subst evs.
      cbn in Hin. intuition discriminate. }
  destruct (LucamStreamVideoControl (_handle (self m)) start (lib m))
    as [[] w1]; cbn [self lib calls fst snd].
  2:{ destruct (LucamGetLastErrorForCamera (_handle (self m)) w1) as [code w2].
      cbn [self lib calls fst snd]. rewrite <- !app_assoc.
      intros Hcalls Hin. apply app_inv_head in Hcalls. subst evs.
      cbn in Hin. intuition discriminate. }
  destruct (LucamOneShotAutoWhiteBalance (_handle (self m)) start_x start_y
              width height w1) as [[] w2]; cbn [self lib calls fst snd].
  - match goal with
    | |- context [refresh_and_enable ?m0] =>
        destruct (refresh_and_enable_calls m0) as (evs' & Hcalls' & Hall)
    end.
    cbn [calls] in Hcalls'. rewrite Hcalls', <- !app_assoc.
    intros Hcalls Hin. apply app_inv_head in Hcalls. subst evs.
    cbn [app] in Hin.
    destruct Hin as [[=]|[[=]|[[=]|Hin]]].
    rewrite Forall_forall in Hall. destruct (Hall _ (proj2 (list_elem_of_In _ _) Hin)).
  - destruct (LucamGetLastErrorForCamera (_handle (self m)) w2) as [code w3].
    cbn [self lib calls fst snd]. rewrite <- !app_assoc.
    intros Hcalls _. apply app_inv_head in Hcalls. subst evs.
    exists start, code. split; reflexivity.
Qed.

End Balance.

(** X12: [white_balance] does not roll back.  When it raises with a
    region at hand, fast frames are marked enabled afterwards only if
    they were before and the call to disable them was the refused
    one: once they have been disabled, a later failure (streaming,
    white balance, a property query, the enabling itself) leaves the
    flag false. *)
Theorem white_balance_no_rollback `{API} (start_x start_y : Z)
    (width height : option Z) (w h : Z) (m : LucamCamera.machine) :
  match width with
  | Some given => Some given
  | None => LucamCamera.width (LucamCamera.self m)
  end = Some w ->
  match height with
  | Some given => Some given
  | None => LucamCamera.height (LucamCamera.self m)
  end = Some h ->
  let run := LucamCamera.white_balance start_x start_y width height m in
  is_ok (fst run) = false ->
  LucamCamera.fast_frames_enabled (LucamCamera.self (snd run))
  = LucamCamera.fast_frames_enabled (LucamCamera.self m)
    && negb (fst (LucamDisableFastFrames
                    (LucamCamera._handle (LucamCamera.self m))
                    (LucamCamera.lib m))).
Proof.
  intros Hw Hh. cbn zeta.
  rewrite (white_balance_defaults start_x start_y width height w h m Hw Hh).
  rewrite white_balance_phases. unfold LucamCamera.bind. cbn beta.
  destruct (LucamCamera.fast_frames_enabled (LucamCamera.self m)) eqn:Hflag.
  - pose proof (disable_fast_frames_cases m) as Hd. cbn zeta in Hd.
    destruct (LucamDisableFastFrames (LucamCamera._handle (LucamCamera.self m))
                (LucamCamera.lib m)) as [[] w1]; cbn [fst negb andb];
      lazy beta iota in Hd.
    + rewrite Hd. lazy beta iota. intros Hraise.
      match goal with
      | |- context [LucamCamera.stream_and_balance _ _ _ _ ?m0] =>
          pose proof (stream_and_balance_flag start_x start_y w h m0) as Hs
      end.
      match type of Hs with
      | match fst ?r with _ => _ end =>
          destruct (fst r); [discriminate|rewrite Hs; reflexivity]
      end.
    + destruct (LucamGetLastErrorForCamera
                  (LucamCamera._handle (LucamCamera.self m)) w1) as [code w2].
      lazy beta iota in Hd. rewrite Hd. lazy beta iota.
      cbn [fst snd LucamCamera.self]. intros _. exact Hflag.
  - cbn [andb]. unfold LucamCamera.ret. lazy beta iota. intros Hraise.
    pose proof (stream_and_balance_flag start_x start_y w h m) as Hs.
    destruct (fst (LucamCamera.stream_and_balance start_x start_y w h m));
      [discriminate|].
    rewrite Hs. exact Hflag.
Qed.

Lemma white_balance_no_rollback_witness :
  LucamCamera.fast_frames_enabled
    (LucamCamera.self (Simulated.small_session true ["LucamStreamVideoControl"]))
  = true /\
  LucamCamera.fast_frames_enabled
    (LucamCamera.self
       (snd (LucamCamera.white_balance 0 0 None None
               (Simulated.small_session true ["LucamStreamVideoControl"]))))
  = false.
Proof.
  split; [reflexivity|].
  rewrite (white_balance_no_rollback
             (H := Simulated.api 1 ["LucamStreamVideoControl"])
             0 0 None None 2 3
             (Simulated.small_session true ["LucamStreamVideoControl"])
             eq_refl eq_refl);
    vm_compute; reflexivity.
Defined.

(** X13: when the one-shot white balance is refused, [white_balance]
    raises the camera's error at once: the stream it started is not
    stopped, the snapshot is not refreshed and fast frames are not
    enabled again.  Its calls are then the disabling of fast frames,
    if they were on, the start of the stream, the refused white
    balance over the region, and the error query. *)
Theorem white_balance_stream_left_running `{API} (start_x start_y : Z)
    (width height : option Z) (w h : Z) (m : LucamCamera.machine)
    (evs : list (event pyfloat FLOAT)) (handle' x' y' w' h' : Z) :
  match width with
  | Some given => Some given
  | None => LucamCamera.width (LucamCamera.self m)
  end = Some w ->
  match height with
  | Some given => Some given
  | None => LucamCamera.height (LucamCamera.self m)
  end = Some h ->
  let run := LucamCamera.white_balance start_x start_y width height m in
  let handle := LucamCamera._handle (LucamCamera.self m) in
  LucamCamera.calls (snd run) = (LucamCamera.calls m ++ evs)%list ->
  In (OneShotAutoWhiteBalance handle' x' y' w' h' false) evs ->
  exists before start code,
    evs = (before ++
           [Getattr "START_STREAMING" (Some start);
            StreamVideoControl handle start true;
            OneShotAutoWhiteBalance handle start_x start_y w h false;
            GetLastErrorForCamera handle code])%list /\
    (before = [] \/ before = [DisableFastFrames handle true]) /\
    fst run = Raise (LucamErr code).
Proof.
  intros Hw Hh. cbn zeta.
  rewrite (white_balance_defaults start_x start_y width height w h m Hw Hh).
  rewrite white_balance_phases. unfold LucamCamera.bind. cbn beta.
  destruct (LucamCamera.fast_frames_enabled (LucamCamera.self m)).
  - pose proof (disable_fast_frames_cases m) as Hd. cbn zeta in Hd.
    destruct (LucamDisableFastFrames (LucamCamera._handle (LucamCamera.self m))
                (LucamCamera.lib m)) as [[] w1]; lazy beta iota in Hd.
    + rewrite Hd. lazy beta iota. intros Hcalls Hin.
      match goal with
      | |- context [LucamCamera.stream_and_balance _ _ _ _ ?m0] =>
          pose proof (stream_and_balance_refused start_x start_y w h m0) as Hs;
          destruct (obeys_stream_and_balance start_x start_y w h (fun _ => True) m0)
            as (evs1 & Hcalls1 & _)
      end.
      cbn zeta in Hs. cbn [LucamCamera.self LucamCamera.calls] in Hs, Hcalls1.
      rewrite Hcalls1, <- app_assoc in Hcalls. apply app_inv_head in Hcalls.
      subst evs. destruct Hin as [[=]|Hin].
      destruct (Hs evs1 handle' x' y' w' h' Hcalls1 Hin)
        as (start & code & -> & Hraise).
      exists [DisableFastFrames (LucamCamera._handle (LucamCamera.self m)) true],
        start, code.
      split; [reflexivity|]. split; [right; reflexivity|exact Hraise].
    + destruct (LucamGetLastErrorForCamera
                  (LucamCamera._handle (LucamCamera.self m)) w1) as [code w2].
      lazy beta iota in Hd. rewrite Hd. lazy beta iota.
      cbn [fst snd LucamCamera.calls]. rewrite <- app_assoc.
      intros Hcalls Hin. apply app_inv_head in Hcalls. subst evs.
      cbn in Hin. intuition discriminate.
  - unfold LucamCamera.ret. lazy beta iota. intros Hcalls Hin.
    destruct (stream_and_balance_refused start_x start_y w h m evs
                handle' x' y' w' h' Hcalls Hin) as (start & code & -> & Hraise).
    exists [], start, code.
    split; [reflexivity|]. split; [left; reflexivity|exact Hraise].
Qed.

Lemma white_balance_stream_left_running_witness :
  exists before start code,
    LucamCamera.calls
      (snd (LucamCamera.white_balance 0 0 None None
              (Simulated.small_session true ["LucamOneShotAutoWhiteBalance"])))
    = (before ++
       [Getattr "START_STREAMING" (Some start); StreamVideoControl 1 start true;
        OneShotAutoWhiteBalance 1 0 0 2 3 false;
        GetLastErrorForCamera 1 code])%list /\
    fst (LucamCamera.white_balance 0 0 None None
           (Simulated.small_session true ["LucamOneShotAutoWhiteBalance"]))
    = Raise (LucamErr code).
Proof.
  destruct (white_balance_stream_left_running
              (H := Simulated.api 1 ["LucamOneShotAutoWhiteBalance"])
              0 0 None None 2 3
              (Simulated.small_session true ["LucamOneShotAutoWhiteBalance"])
              [DisableFastFrames 1 true; Getattr "START_STREAMING" (Some 1%Z);
               StreamVideoControl 1 1 true; OneShotAutoWhiteBalance 1 0 0 2 3 false;
               GetLastErrorForCamera 1 5]
              1 0 0 2 3 eq_refl eq_refl)
    as (before & start & code & Hevs & _ & Hraise).
  - vm_compute. reflexivity.
  - cbn. tauto.
  - exists before, start, code. split; [|exact Hraise].
    etransitivity; [|exact Hevs]. vm_compute. reflexivity.
Defined.

(** ** Failing before the library is reached *)


Example enable_fast_frames_overflow :
  let big :=
    {| Format.xOffset := 0; Format.yOffset := 0; Format.width := 640;
       Format.height := 2 ^ 32; Format.pixelFormat := 0; Format.subSampleX := 1;
       Format.binningX := 1; Format.flagsX := 0; Format.subSampleY := 1;
       Format.binningY := 1; Format.flagsY := 0 |} in
  let given :=
    @Snapshot.Build_t (Simulated.api 1 [])
      (PyFloat 20) (PyFloat 40) (PyFloat 41) (PyFloat 44) (PyFloat 42)
      (PyFloat 43) (PyInt 100) big in
  LucamCamera.enable_fast_frames (Some given) (Simulated.small_session false [])
  = (Raise (OverflowError "height"), Simulated.small_session false []).
Proof. vm_compute. reflexivity. Qed.

(** X15: [take_fast_frame] assigns nothing, and reaches the library
    only with an array it could allocate: an unset [height] or
    [width], looked up in that order, raises [AttributeError], and a
    negative one makes numpy raise [ValueError], in both cases before
    any call.  Otherwise it makes one [LucamTakeFastFrame] call, on a
    buffer of height times width bytes. *)
Theorem take_fast_frame_before_call `{API} (m : LucamCamera.machine) :
  let run := LucamCamera.take_fast_frame m in
  let h := LucamCamera._handle (LucamCamera.self m) in
  LucamCamera.self (snd run) = LucamCamera.self m /\
  match LucamCamera.height (LucamCamera.self m),
        LucamCamera.width (LucamCamera.self m) with
  | None, _ => run = (Raise (AttributeError "height"), m)
  | Some _, None => run = (Raise (AttributeError "width"), m)
  | Some rows, Some columns =>
      if ((rows <? 0) || (columns <? 0))%Z
      then run = (Raise (ValueError "negative dimensions are not allowed"), m)
      else
        exists ok rest,
          LucamCamera.calls (snd run)
          = (LucamCamera.calls m ++ TakeFastFrame h (rows * columns) ok :: rest)%list /\
          Forall (fun e => match e with
                           | GetLastErrorForCamera _ _ => True
                           | _ => False
                           end) rest
  end.
Proof.
  cbn zeta. split; [apply unchanged_take_fast_frame|].
  unfold LucamCamera.take_fast_frame, LucamCamera.self_height,
    LucamCamera.self_width.
  unfold_session.
  destruct (LucamCamera.height (LucamCamera.self m)) as [rows|];
    [|reflexivity].
  destruct (LucamCamera.width (LucamCamera.self m)) as [columns|];
    [|reflexivity].
  unfold np.ndarray2.
  destruct ((rows <? 0) || (columns <? 0))%Z; [reflexivity|].
  cbn [LucamCamera.self LucamCamera.lib LucamCamera.calls].
  destruct (LucamTakeFastFrame _ _ _) as [[[] data] w1];
    cbn [fst snd LucamCamera.self LucamCamera.lib LucamCamera.calls].
  - exists true, []. split; [reflexivity|constructor].
  - destruct (LucamGetLastErrorForCamera _ w1) as [code w2].
    cbn [fst snd LucamCamera.calls].
    eexists false, _. rewrite <- app_assoc. split; [reflexivity|].
    repeat constructor.
Qed.
